(** * simple_fastqc: the FastQC report parser and its module interpreters

    A shallow embedding of [src/simple_fastqc/simple_fastqc.py]: the classes
    [FastQCModule], [OverrepresentedSequencesModule], [BasicStatisticsModule]
    and [FastQCResults], together with the pieces of the Python runtime they
    call ([str] methods, [int], [float], [dict]).

    Conventions.
    - A Python [str] is a Rocq [string]; a character is a code point below
      256, so the Unicode tables of [str.isspace], [str.splitlines] and
      [int] are the restrictions of Python's tables to that range.
    - A raised exception is the [Raise] branch of [result]; [try]/[except]
      is a match on it.
    - A [dict] is an association list in insertion order with unique keys.
    - [assert] statements are executed (the interpreter runs without [-O]).
    - The file behind [open(path, "r")] is given by its decoded content. *)

From Stdlib Require Import String Ascii List ZArith Lia Bool.
From Stdlib Require Import Floats.SpecFloat.
From Stdlib Require Import DecimalString.
Import ListNotations.

Local Open Scope string_scope.
Local Open Scope list_scope.

(** ** Exceptions and results *)

Inductive exn : Type :=
| AssertionError
| IndexError
| ValueError
| KeyError (key : string)
| AttributeError
| TypeError
| OverflowError
| ParserError (msg : string)
| EmptyDataError.

Inductive result (A : Type) : Type :=
| Ok (a : A)
| Raise (e : exn).

Arguments Ok {A} a.
Arguments Raise {A} e.

Definition bind {A B : Type} (r : result A) (k : A -> result B) : result B :=
  match r with
  | Ok a => k a
  | Raise e => Raise e
  end.

Notation "x <- r ;; k" := (bind r (fun x => k))
  (at level 61, r at next level, right associativity).

(** ** Python strings *)

Module PyStr.

Definition tab : ascii := "009"%char.
Definition lf : ascii := "010"%char.
Definition cr : ascii := "013"%char.

(** [str.isspace] on one character: the White_Space code points below 256
    together with the separators FS, GS, RS and US. *)
Definition isspace (c : ascii) : bool :=
  let n := N_of_ascii c in
  ((9 <=? n) && (n <=? 13) || (28 <=? n) && (n <=? 31)
   || (n =? 32) || (n =? 133) || (n =? 160))%N.

(** The line boundaries of [str.splitlines]: LF, VT, FF, CR, FS, GS, RS
    and NEL (CR LF counts as one boundary, see [splitlines]). *)
Definition islinebreak (c : ascii) : bool :=
  let n := N_of_ascii c in
  ((10 <=? n) && (n <=? 13) || (28 <=? n) && (n <=? 30) || (n =? 133))%N.

(** [s.rstrip()] *)
Fixpoint rstrip (s : string) : string :=
  match s with
  | EmptyString => EmptyString
  | String c s' =>
      match rstrip s' with
      | EmptyString => if isspace c then EmptyString else String c EmptyString
      | r => String c r
      end
  end.

(** The rest of [s] after the prefix [p], when [s] starts with [p]. *)
Fixpoint after_prefix (p s : string) : option string :=
  match p, s with
  | EmptyString, _ => Some s
  | String a p', String b s' =>
      if Ascii.eqb a b then after_prefix p' s' else None
  | String _ _, EmptyString => None
  end.

(** [s.startswith(p)] *)
Definition startswith (s p : string) : bool :=
  match after_prefix p s with
  | Some _ => true
  | None => false
  end.

(** [s.removeprefix(p)] *)
Definition removeprefix (s p : string) : string :=
  match after_prefix p s with
  | Some r => r
  | None => s
  end.

(** [s.split(sep)] for a one-character separator: every occurrence of
    [sep] cuts, so the result has one more element than [s] has
    separators. *)
Fixpoint split (sep : ascii) (s : string) : list string :=
  match s with
  | EmptyString => [EmptyString]
  | String c s' =>
      if Ascii.eqb c sep then EmptyString :: split sep s'
      else match split sep s' with
           | h :: t => String c h :: t
           | [] => [String c EmptyString]
           end
  end.

(** [sep.join(l)] *)
Fixpoint join (sep : string) (l : list string) : string :=
  match l with
  | [] => EmptyString
  | [x] => x
  | x :: rest => x ++ sep ++ join sep rest
  end.

(** [s.splitlines()]: the lines of [s] without their boundaries; a final
    boundary does not open an empty last line. *)
Fixpoint splitlines (s : string) : list string :=
  match s with
  | EmptyString => []
  | String c s' =>
      if islinebreak c then
        EmptyString ::
          match s' with
          | String c2 s'' =>
              if Ascii.eqb c cr && Ascii.eqb c2 lf then splitlines s''
              else splitlines s'
          | EmptyString => []
          end
      else match splitlines s' with
           | h :: t => String c h :: t
           | [] => [String c EmptyString]
           end
  end.

(** The newline translation of a text-mode file opened with the default
    [newline=None]: CR LF and a lone CR are read as LF. *)
Fixpoint universal_newlines (s : string) : string :=
  match s with
  | EmptyString => EmptyString
  | String c s' =>
      if Ascii.eqb c cr then
        String lf
          match s' with
          | String c2 s'' =>
              if Ascii.eqb c2 lf then universal_newlines s''
              else universal_newlines s'
          | EmptyString => EmptyString
          end
      else String c (universal_newlines s')
  end.

(** Iterating a text file: each line comes with its final LF, the last
    one possibly without. *)
Fixpoint iter_lines (s : string) : list string :=
  match s with
  | EmptyString => []
  | String c s' =>
      if Ascii.eqb c lf then String c EmptyString :: iter_lines s'
      else match iter_lines s' with
           | h :: t => String c h :: t
           | [] => [String c EmptyString]
           end
  end.

(** Number of occurrences of a character. *)
Fixpoint count (c : ascii) (s : string) : nat :=
  match s with
  | EmptyString => 0
  | String a s' => (if Ascii.eqb a c then 1 else 0) + count c s'
  end.

End PyStr.

Import PyStr.

(** ** Python numbers: [int(str)], [float] and the comparison of an [int]
    with a [float] *)

Module PyNum.

Definition isdigit (c : ascii) : bool :=
  let n := N_of_ascii c in ((48 <=? n) && (n <=? 57))%N.

Definition digit_value (c : ascii) : Z := Z.of_N (N_of_ascii c) - 48.

(** The characters [int] and [float] skip around a literal: the C
    whitespace, and NEL and NBSP, which CPython replaces by spaces before
    it parses.  FS, GS, RS and US are not among them, although
    [str.isspace] holds of them. *)
Definition isspace_number (c : ascii) : bool :=
  let n := N_of_ascii c in
  ((9 <=? n) && (n <=? 13) || (n =? 32) || (n =? 133) || (n =? 160))%N.

Fixpoint skip_leading (s : string) : string :=
  match s with
  | EmptyString => EmptyString
  | String c s' => if isspace_number c then skip_leading s' else s
  end.

Fixpoint skip_trailing (s : string) : string :=
  match s with
  | EmptyString => EmptyString
  | String c s' =>
      match skip_trailing s' with
      | EmptyString =>
          if isspace_number c then EmptyString else String c EmptyString
      | r => String c r
      end
  end.

(** A literal without the whitespace around it. *)
Definition trim (s : string) : string := skip_leading (skip_trailing s).

(** The digits of a base-10 literal: decimal digits, with single
    underscores allowed between two digits.  Returns the value and the
    number of digits read. *)
Fixpoint digits (acc : Z) (n : nat) (after_digit : bool) (s : string)
  : option (Z * nat) :=
  match s with
  | EmptyString => if after_digit then Some (acc, n) else None
  | String c s' =>
      if isdigit c then digits (10 * acc + digit_value c) (S n) true s'
      else if Ascii.eqb c "_"%char then
        if after_digit then digits acc n false s' else None
      else None
  end.

(** Below this many digits CPython never consults the digit limit. *)
Definition max_str_digits_threshold : nat := 640.

Section IntOfStr.

(** The interpreter's limit on the digits of a parsed integer
    ([sys.get_int_max_str_digits()]: 4300 unless configured, [0] when
    the limit is switched off or the interpreter predates it; a limit
    that is set is at least the threshold). *)
Variable max_str_digits : nat.

Definition exceeds_limit (n : nat) : bool :=
  (max_str_digits_threshold <? n)%nat
  && (0 <? max_str_digits)%nat && (max_str_digits <? n)%nat.

(** [int(s)] for a string [s]: [None] stands for [ValueError]. *)
Definition int_of_str (s : string) : option Z :=
  let s := trim s in
  let '(neg, body) :=
    match s with
    | String "-"%char r => (true, r)
    | String "+"%char r => (false, r)
    | _ => (false, s)
    end in
  match digits 0 0 false body with
  | Some (v, n) =>
      if exceeds_limit n then None
      else Some (if neg then (- v)%Z else v)
  | None => None
  end.

End IntOfStr.

(** The binary64 number nearest to the integer [n] (ties to even),
    infinite when [n] is out of range. *)
Definition double_of_Z (n : Z) : spec_float :=
  binary_normalize 53 1024 n 0 false.

(** [n == f] for an [int] and a [float]: Python compares the exact
    values. *)
Definition int_eq_float (n : Z) (f : spec_float) : bool :=
  match f with
  | S754_zero _ => (n =? 0)%Z
  | S754_finite s m e =>
      if (0 <=? e)%Z then (n =? cond_Zopp s (Zpos m * 2 ^ e))%Z
      else (n * 2 ^ (- e) =? cond_Zopp s (Zpos m))%Z
  | S754_infinity _ | S754_nan => false
  end.

End PyNum.

Import PyNum.

(** ** Python dictionaries *)

Module PyDict.

Section Dict.

Variable V : Type.

(** Entries in insertion order; the operations keep the keys unique. *)
Definition dict : Type := list (string * V).

Fixpoint get (d : dict) (k : string) : option V :=
  match d with
  | [] => None
  | (k', v) :: rest => if String.eqb k' k then Some v else get rest k
  end.

(** [d[k]] *)
Definition getitem (d : dict) (k : string) : result V :=
  match get d k with
  | Some v => Ok v
  | None => Raise (KeyError k)
  end.

(** [d[k] = v]: an existing key keeps its place, a new key goes last. *)
Fixpoint setitem (d : dict) (k : string) (v : V) : dict :=
  match d with
  | [] => [(k, v)]
  | (k', v') :: rest =>
      if String.eqb k' k then (k', v) :: rest
      else (k', v') :: setitem rest k v
  end.

Fixpoint remove (d : dict) (k : string) : dict :=
  match d with
  | [] => []
  | (k', v) :: rest =>
      if String.eqb k' k then rest else (k', v) :: remove rest k
  end.

(** [del d[k]] *)
Definition delitem (d : dict) (k : string) : result dict :=
  match get d k with
  | Some _ => Ok (remove d k)
  | None => Raise (KeyError k)
  end.

(** [list(d)] *)
Definition keys (d : dict) : list string := map fst d.

(** [d.values()] *)
Definition values (d : dict) : list V := map snd d.

End Dict.

Arguments get {V} d k.
Arguments getitem {V} d k.
Arguments setitem {V} d k v.
Arguments remove {V} d k.
Arguments delitem {V} d k.
Arguments keys {V} d.
Arguments values {V} d.

End PyDict.

(** ** The data model *)

(** A field of the Basic Statistics dictionary: the text read from the
    report, or the [int] it was replaced with. *)
Inductive value : Type :=
| VStr (s : string)
| VInt (n : Z).

(** What the code uses of a pandas [DataFrame]: the column labels, the
    index labels of the rows when the frame has an index of its own ([None]
    for the default numbering) and the rows of cells (cells are kept as
    read, dtype inference is left out). *)
Record DataFrame : Type := mkDataFrame {
  columns : list string;
  index : option (list (list string));
  rows : list (list string)
}.

(** [df.rename(columns=f)] *)
Definition rename_columns (f : string -> string) (df : DataFrame) : DataFrame :=
  {| columns := map f (columns df); index := index df; rows := rows df |}.

(** The content of the [data] attribute, which Python leaves untyped:
    [None], the raw text, a dataframe or a dictionary. *)
Inductive pydata : Type :=
| DNone
| DStr (s : string)
| DFrame (df : DataFrame)
| DDict (d : PyDict.dict value).

Inductive module_class : Type :=
| FastQCModule_class
| OverrepresentedSequencesModule_class
| BasicStatisticsModule_class.

(** An instance of [FastQCModule] or of one of its subclasses.  The parser
    always passes [name] and [status]; [data] is [None] until the module
    closes. *)
Record FastQCModule : Type := mkModule {
  cls : module_class;
  name : string;
  data : pydata;
  status : string
}.

Definition set_data (m : FastQCModule) (d : pydata) : FastQCModule :=
  {| cls := cls m; name := name m; data := d; status := status m |}.

Record FastQCResults : Type := mkResults {
  modules : PyDict.dict FastQCModule
}.

(** [FastQCResults()] *)
Definition new_results : FastQCResults := {| modules := [] |}.

(** The [results] property. *)
Definition results (r : FastQCResults) : PyDict.dict FastQCModule := modules r.

(** [r.results[name]]: the outcome, and the object afterwards. *)
Definition results_getitem (r : FastQCResults) (k : string)
  : result FastQCModule * FastQCResults :=
  (PyDict.getitem (results r) k, r).

(** [r.results[k] = m]: [results] returns the dictionary itself, so the
    assignment updates [modules]. *)
Definition results_setitem (r : FastQCResults) (k : string) (m : FastQCModule)
  : FastQCResults :=
  {| modules := PyDict.setitem (results r) k m |}.

(** [status_dict] *)
Definition status_dict (r : FastQCResults) : PyDict.dict string :=
  fold_left (fun acc m => PyDict.setitem acc (name m) (status m))
            (PyDict.values (results r)) [].

(** ** The module interpreters *)

(** [FastQCModule.from_module], called on the class [c]. *)
Definition FastQCModule_from_module (c : module_class) (m : FastQCModule)
  : result FastQCModule :=
  Ok {| cls := c; name := name m; data := data m; status := status m |}.

(** The truth value of a [data] attribute in [if data:]. *)
Definition truth (d : pydata) : result bool :=
  match d with
  | DNone => Ok false
  | DStr s => Ok (negb (String.eqb s ""))
  | DFrame _ => Raise ValueError
  | DDict d => Ok (match d with [] => false | _ :: _ => true end)
  end.

(** [list[i]] *)
Definition list_getitem {A : Type} (l : list A) (i : nat) : result A :=
  match nth_error l i with
  | Some a => Ok a
  | None => Raise IndexError
  end.

Section Interpreters.

(** The interpreter's integer digit limit, see [PyNum.int_of_str]. *)
Variable max_str_digits : nat.

(** [pd.read_csv(io.StringIO(text), sep="\t")]: pandas is not part of the
    repository, so its reader is a parameter; it returns a dataframe or
    raises. *)
Variable read_csv : string -> result DataFrame.

Definition read_csv_or_empty (d : pydata) : result (option DataFrame) :=
  b <- truth d ;;
  if b then
    match d with
    | DStr s =>
        df <- read_csv s ;;
        Ok (Some (rename_columns (fun n => removeprefix n "#") df))
    | _ => Raise TypeError
    end
  else Ok None.

Definition OverrepresentedSequencesModule_from_module (m : FastQCModule)
  : result FastQCModule :=
  t <- read_csv_or_empty (data m) ;;
  Ok {| cls := OverrepresentedSequencesModule_class;
        name := name m;
        data := match t with Some df => DFrame df | None => DNone end;
        status := status m |}.

(** [dict(items)] for items that are lists of strings: each must have
    exactly two elements. *)
Fixpoint dict_of_items (d : PyDict.dict value) (items : list (list string))
  : result (PyDict.dict value) :=
  match items with
  | [] => Ok d
  | [k; v] :: rest => dict_of_items (PyDict.setitem d k (VStr v)) rest
  | _ :: _ => Raise ValueError
  end.

(** [as_int = int(v)] followed by [as_float = float(v)].  [float] is only
    reached on a value that [int] accepted: an integer literal, which
    [float] reads as the nearest double, or an [int], which [float]
    converts unless it is out of range. *)
Definition int_then_float (v : value) : result (Z * spec_float) :=
  match v with
  | VStr s =>
      match int_of_str max_str_digits s with
      | Some n => Ok (n, double_of_Z n)
      | None => Raise ValueError
      end
  | VInt n =>
      match double_of_Z n with
      | S754_infinity _ => Raise OverflowError
      | f => Ok (n, f)
      end
  end.

(** The body of the [try] for key [k]. *)
Definition coerce_key (d : PyDict.dict value) (k : string)
  : result (PyDict.dict value) :=
  v <- PyDict.getitem d k ;;
  p <- int_then_float v ;;
  let '(as_int, as_float) := p in
  if int_eq_float as_int as_float
  then Ok (PyDict.setitem d k (VInt as_int))
  else Ok d.

(** [for k in keys: ...] *)
Fixpoint coerce_loop (ks : list string) (d : PyDict.dict value)
  : result (PyDict.dict value) :=
  match ks with
  | [] => Ok d
  | k :: rest =>
      if startswith k "#" then
        d' <- PyDict.delitem d k ;; coerce_loop rest d'
      else
        match coerce_key d k with
        | Ok d' => coerce_loop rest d'
        | Raise ValueError => coerce_loop rest d
        | Raise e => Raise e
        end
  end.

Definition BasicStatisticsModule_from_module (m : FastQCModule)
  : result FastQCModule :=
  match data m with
  | DStr s =>
      data_dict <- dict_of_items [] (map (split tab) (splitlines s)) ;;
      v <- PyDict.getitem data_dict "##FastQC" ;;
      let data_dict := PyDict.setitem data_dict "FastQC" v in
      let keys := PyDict.keys data_dict in
      data_dict <- coerce_loop keys data_dict ;;
      Ok {| cls := BasicStatisticsModule_class;
            name := name m;
            data := DDict data_dict;
            status := status m |}
  | _ => Raise AttributeError
  end.

(** [c.from_module(m)] *)
Definition from_module (c : module_class) (m : FastQCModule)
  : result FastQCModule :=
  match c with
  | FastQCModule_class => FastQCModule_from_module c m
  | OverrepresentedSequencesModule_class =>
      OverrepresentedSequencesModule_from_module m
  | BasicStatisticsModule_class => BasicStatisticsModule_from_module m
  end.

(** ** The registry and the report parser *)

Definition module_classes : PyDict.dict module_class :=
  [("Overrepresented sequences", OverrepresentedSequencesModule_class);
   ("Basic Statistics", BasicStatisticsModule_class)].

(** [module_classes.get(n, FastQCModule)] *)
Definition module_class_of (n : string) : module_class :=
  match PyDict.get module_classes n with
  | Some c => c
  | None => FastQCModule_class
  end.

(** The local variables of [parse_from_file]. *)
Record parser_state : Type := mkState {
  mod_ : option FastQCModule;
  data_lines : list string;
  parsed : FastQCResults
}.

Definition initial_state : parser_state :=
  {| mod_ := None; data_lines := []; parsed := new_results |}.

(** One turn of the [for] loop on the line [l]. *)
Definition parse_line (st : parser_state) (l : string) : result parser_state :=
  let l := rstrip l in
  if startswith l ">>" then
    let l := removeprefix l ">>" in
    match mod_ st with
    | None =>
        let res := split tab l in
        n <- list_getitem res 0 ;;
        s <- list_getitem res 1 ;;
        Ok {| mod_ := Some {| cls := FastQCModule_class; name := n;
                              data := DNone; status := s |};
              data_lines := data_lines st;
              parsed := parsed st |}
    | Some m =>
        if String.eqb l "END_MODULE" then
          let m := set_data m (DStr (join (String lf "") (data_lines st))) in
          sm <- from_module (module_class_of (name m)) m ;;
          Ok {| mod_ := None;
                data_lines := [];
                parsed := results_setitem (parsed st) (name m) sm |}
        else Raise AssertionError
    end
  else
    Ok {| mod_ := mod_ st;
          data_lines := data_lines st ++ [l];
          parsed := parsed st |}.

(** The [for] loop from the state [st]. *)
Fixpoint parse_lines (st : parser_state) (ls : list string)
  : result parser_state :=
  match ls with
  | [] => Ok st
  | l :: rest => st' <- parse_line st l ;; parse_lines st' rest
  end.

(** The loop over all lines, then [return results]. *)
Definition parse_report (ls : list string) : result FastQCResults :=
  st <- parse_lines initial_state ls ;; Ok (parsed st).

(** [FastQCResults.parse_from_file], on the content of the file. *)
Definition parse_from_file (content : string) : result FastQCResults :=
  parse_report (iter_lines (universal_newlines content)).

End Interpreters.

(** ** The analysis: [FastQCAnalysis]

    The class runs the external [fastqc] program and reads the reports it
    leaves on disk.  [pathlib], the process and the files are outside the
    repository and are parameters:
    - [Path] is the type of [pathlib.Path] values, with [Path(s)] for a
      string, [str(p)], [p.name], [p / s] and the equality test a
      dictionary uses on its keys;
    - [World] is the state of the machine; [popen cmd w] runs the command
      to its end ([Popen] then [communicate]) and gives the new state with
      the return code, or [None] when the process cannot be started;
      [read_file p w] is the content read from the file at [p], or [None]
      when it cannot be opened or read. *)

Module Analysis.

Section WithWorld.

Variable max_str_digits : nat.
Variable read_csv : string -> result DataFrame.

Variable Path : Type.
Variable Path_of_str : string -> Path.
Variable str_of_Path : Path -> string.
Variable Path_name : Path -> string.
Variable Path_div : Path -> string -> Path.
Variable Path_eqb : Path -> Path -> bool.

Variable World : Type.
Variable popen : list string -> World -> World * option Z.
Variable read_file : Path -> World -> option string.

(** What the methods of the class raise. *)
Inductive error : Type :=
| PathTypeError
| ProcessStartError
| CalledProcessError (returncode : Z) (args : list string)
| FileError (p : Path)
| ReportError (e : exn).

(** A value of type [Union[str, Path]]. *)
Inductive pathlike : Type :=
| AsStr (s : string)
| AsPath (p : Path).

(** [Path(x)] *)
Definition to_Path (x : pathlike) : Path :=
  match x with
  | AsStr s => Path_of_str s
  | AsPath p => p
  end.

(** A dictionary keyed by paths: entries in insertion order. *)
Definition path_dict : Type := list (Path * FastQCResults).

Fixpoint path_dict_get (d : path_dict) (k : Path) : option FastQCResults :=
  match d with
  | [] => None
  | (k', v) :: rest => if Path_eqb k' k then Some v else path_dict_get rest k
  end.

Fixpoint path_dict_set (d : path_dict) (k : Path) (v : FastQCResults)
  : path_dict :=
  match d with
  | [] => [(k, v)]
  | (k', v') :: rest =>
      if Path_eqb k' k then (k', v) :: rest
      else (k', v') :: path_dict_set rest k v
  end.

Record FastQCAnalysis : Type := mkAnalysis {
  _read_paths : list Path;
  _out_dir : option Path;
  _threads : Z;
  _results : option path_dict
}.

(** [FastQCAnalysis(read_paths, out_dir, threads)]: [Path(out_dir)] raises
    [TypeError] on [None], the default of [out_dir]. *)
Definition init (read_paths : list pathlike) (out_dir : option pathlike)
  (threads : Z) : error + FastQCAnalysis :=
  let rps := map to_Path read_paths in
  match out_dir with
  | None => inl PathTypeError
  | Some o =>
      inr {| _read_paths := rps; _out_dir := Some (to_Path o);
             _threads := threads; _results := None |}
  end.

(** The properties [read_paths], [out_dir] and [threads]. *)
Definition read_paths (a : FastQCAnalysis) : list Path := _read_paths a.
Definition out_dir (a : FastQCAnalysis) : option Path := _out_dir a.
Definition threads (a : FastQCAnalysis) : Z := _threads a.

(** [str(n)] for an [int]. *)
Definition str_of_int (n : Z) : string := NilZero.string_of_int (Z.to_int n).

Definition _build_fastqc_command (a : FastQCAnalysis) : list string :=
  let command := ["fastqc"; "--extract"; "-T"; str_of_int (_threads a)] in
  let command :=
    match _out_dir a with
    | Some o => command ++ ["-o"; str_of_Path o]
    | None => command
    end in
  command ++ map str_of_Path (_read_paths a).

(** The file [_get_results] reads for the read file [p]:
    [out_dir / (p.name.split(".")[0] + "_fastqc") / "fastqc_data.txt"]. *)
Definition report_path (o : Path) (p : Path) : Path :=
  Path_div (Path_div o (nth 0 (split "."%char (Path_name p)) "" ++ "_fastqc")%string)
           "fastqc_data.txt".

(** The dictionary comprehension of [_get_results], entry by entry. *)
Fixpoint read_reports (o : option Path) (ps : list Path) (w : World)
  (acc : path_dict) : error + path_dict :=
  match ps with
  | [] => inr acc
  | p :: rest =>
      match o with
      | None => inl PathTypeError
      | Some o' =>
          match read_file (report_path o' p) w with
          | None => inl (FileError (report_path o' p))
          | Some content =>
              match parse_from_file max_str_digits read_csv content with
              | Raise e => inl (ReportError e)
              | Ok r => read_reports o rest w (path_dict_set acc p r)
              end
          end
      end
  end.

(** [_get_results]: the state of the machine afterwards, and the object
    with its results set, or what was raised. *)
Definition _get_results (a : FastQCAnalysis) (w : World)
  : World * (error + FastQCAnalysis) :=
  let args := _build_fastqc_command a in
  match popen args w with
  | (w', None) => (w', inl ProcessStartError)
  | (w', Some returncode) =>
      if (returncode =? 0)%Z then
        match read_reports (_out_dir a) (_read_paths a) w' [] with
        | inl e => (w', inl e)
        | inr d =>
            (w', inr {| _read_paths := _read_paths a; _out_dir := _out_dir a;
                        _threads := _threads a; _results := Some d |})
        end
      else (w', inl (CalledProcessError returncode args))
  end.

(** The property [results]: what it returns, with the object afterwards. *)
Definition results (a : FastQCAnalysis) (w : World)
  : World * (error + FastQCAnalysis * option path_dict) :=
  match _results a with
  | None =>
      match _get_results a w with
      | (w', inl e) => (w', inl e)
      | (w', inr a') => (w', inr (a', _results a'))
      end
  | Some d => (w, inr (a, Some d))
  end.

End WithWorld.

Arguments PathTypeError {Path}.
Arguments ProcessStartError {Path}.
Arguments CalledProcessError {Path} returncode args.
Arguments FileError {Path} p.
Arguments ReportError {Path} e.
Arguments AsStr {Path} s.
Arguments AsPath {Path} p.
Arguments mkAnalysis {Path}.
Arguments _read_paths {Path} _.
Arguments _out_dir {Path} _.
Arguments _threads {Path} _.
Arguments _results {Path} _.

End Analysis.

(** A machine to run the analysis on concrete inputs: a path is its text,
    [p / s] puts a slash between, the name of a path is the path itself
    (the read files lie in the working directory), the state of the machine
    is the list of the commands run so far, [fastqc] fails on the read file
    [missing.fastq] and otherwise leaves one report, for [reads.fastq]. *)
Module SampleMachine.

Definition Path : Type := string.
Definition Path_of_str (s : string) : Path := s.
Definition str_of_Path (p : Path) : string := p.
Definition Path_name (p : Path) : string := p.
Definition Path_div (p : Path) (s : string) : Path := (p ++ "/" ++ s)%string.
Definition Path_eqb : Path -> Path -> bool := String.eqb.

Definition World : Type := list (list string).

Definition popen (cmd : list string) (w : World) : World * option Z :=
  (cmd :: w,
   Some (if existsb (String.eqb "missing.fastq") cmd then 1%Z else 0%Z)).

Definition report : string :=
  (">>Per base sequence quality" ++ String tab "pass" ++ String lf ""
   ++ "#Base" ++ String tab "Mean" ++ String lf ""
   ++ ">>END_MODULE" ++ String lf "")%string.

Definition read_file (p : Path) (w : World) : option string :=
  match w with
  | [] => None
  | _ :: _ =>
      if String.eqb p "out/reads_fastqc/fastqc_data.txt" then Some report
      else None
  end.

End SampleMachine.

(** ** The table reader of pandas

    [pd.read_csv(io.StringIO(text), sep="\t")] with every other option at
    its default, as the C tokenizer of pandas reads the text: fields are
    cut at tabs and records at line ends, a field that starts with a double
    quote runs to the closing quote (a doubled quote inside stands for
    one), empty lines and lines of spaces are skipped, the first record
    gives the column labels, and records after the second may not be longer
    than the one before.  pandas is not part of the repository: this is a
    model of it, and [in_domain] says on which texts it is meant to give
    what pandas gives. *)

Module Pandas.

Definition dquote : ascii := "034"%char.
Definition space : ascii := " "%char.
Definition nul : ascii := "000"%char.

(** The states of the tokenizer that a text can reach under these
    options. *)
Inductive state : Type :=
| START_RECORD
| WHITESPACE_LINE
| START_FIELD
| IN_FIELD
| IN_QUOTED_FIELD
| QUOTE_IN_QUOTED_FIELD
| EAT_CRNL
| EAT_CRNL_NOP.

(** The tokenizer: its state, the field being read (in [WHITESPACE_LINE],
    the spaces read so far, which the tokenizer reads again as the start of
    a field if the line turns out not to be blank), the fields of the
    record being read and the records read. *)
Record tokenizer : Type := mkTokenizer {
  tstate : state;
  field : string;
  fields : list string;
  records : list (list string)
}.

Definition set_state (s : state) (t : tokenizer) : tokenizer :=
  {| tstate := s; field := field t; fields := fields t; records := records t |}.

Definition push_char (c : ascii) (t : tokenizer) : tokenizer :=
  {| tstate := tstate t; field := field t ++ String c "";
     fields := fields t; records := records t |}.

Definition end_field (t : tokenizer) : tokenizer :=
  {| tstate := tstate t; field := ""; fields := fields t ++ [field t];
     records := records t |}.

Definition end_line (t : tokenizer) : tokenizer :=
  {| tstate := START_RECORD; field := ""; fields := [];
     records := records t ++ [fields t] |}.

Definition in_field (t : tokenizer) (c : ascii) : tokenizer :=
  if Ascii.eqb c lf then end_line (end_field t)
  else if Ascii.eqb c cr then set_state EAT_CRNL (end_field t)
  else if Ascii.eqb c tab then set_state START_FIELD (end_field t)
  else set_state IN_FIELD (push_char c t).

Definition start_field (t : tokenizer) (c : ascii) : tokenizer :=
  if Ascii.eqb c dquote then set_state IN_QUOTED_FIELD t
  else in_field t c.

Definition start_record (t : tokenizer) (c : ascii) : tokenizer :=
  if Ascii.eqb c lf then t
  else if Ascii.eqb c cr then set_state EAT_CRNL_NOP t
  else if Ascii.eqb c space then set_state WHITESPACE_LINE (push_char c t)
  else start_field t c.

(** One character. *)
Definition step (t : tokenizer) (c : ascii) : tokenizer :=
  match tstate t with
  | START_RECORD => start_record t c
  | WHITESPACE_LINE =>
      if Ascii.eqb c lf then
        {| tstate := START_RECORD; field := ""; fields := fields t;
           records := records t |}
      else if Ascii.eqb c cr then
        {| tstate := EAT_CRNL_NOP; field := ""; fields := fields t;
           records := records t |}
      else if Ascii.eqb c space then push_char c t
      else in_field t c
  | START_FIELD => start_field t c
  | IN_FIELD => in_field t c
  | IN_QUOTED_FIELD =>
      if Ascii.eqb c dquote then set_state QUOTE_IN_QUOTED_FIELD t
      else push_char c t
  | QUOTE_IN_QUOTED_FIELD =>
      if Ascii.eqb c dquote then set_state IN_QUOTED_FIELD (push_char c t)
      else in_field t c
  | EAT_CRNL =>
      if Ascii.eqb c lf then end_line t
      else if Ascii.eqb c tab then set_state START_FIELD (end_field (end_line t))
      else start_record (end_line t) c
  | EAT_CRNL_NOP =>
      if Ascii.eqb c lf || Ascii.eqb c tab then set_state START_RECORD t
      else start_record (set_state START_RECORD t) c
  end.

Fixpoint run (t : tokenizer) (s : string) : tokenizer :=
  match s with
  | EmptyString => t
  | String c s' => run (step t c) s'
  end.

(** The end of the text: [None] when it comes inside a quoted field. *)
Definition at_eof (t : tokenizer) : option (list (list string)) :=
  match tstate t with
  | START_RECORD | WHITESPACE_LINE | EAT_CRNL_NOP => Some (records t)
  | IN_QUOTED_FIELD => None
  | START_FIELD | IN_FIELD | QUOTE_IN_QUOTED_FIELD =>
      Some (records (end_line (end_field t)))
  | EAT_CRNL => Some (records (end_line t))
  end.

Definition tokenize (text : string) : option (list (list string)) :=
  at_eof (run {| tstate := START_RECORD; field := ""; fields := [];
                 records := [] |} text).

(** A record filled up with empty fields to [w] fields. *)
Definition pad (w : nat) (r : list string) : list string :=
  r ++ repeat "" (w - length r).

(** The records after the header, for a header of [n] labels: the first
    may have any length and is filled up to [n] fields; each one after it
    may not be longer than the one before and is filled up to its length.
    Gives the common length and the records, or [None] for a record that
    is too long. *)
Definition shape (n : nat) (data : list (list string))
  : option (nat * list (list string)) :=
  match data with
  | [] => Some (n, [])
  | first :: rest =>
      let w := Nat.max n (length first) in
      if forallb (fun r => (length r <=? w)%nat) rest
      then Some (w, map (pad w) data)
      else None
  end.

Definition decimal (i : nat) : string := NilZero.string_of_uint (Nat.to_uint i).

Fixpoint occurrences (x : string) (l : list string) : nat :=
  match l with
  | [] => 0
  | y :: l' => (if String.eqb y x then 1 else 0) + occurrences x l'
  end.

(** The label of the column at position [i], whose text in the header is
    [x], the texts before it being [before]: an empty text is named after
    its position, and the second, third, ... column of one text gets the
    suffix [.1], [.2], ... *)
Definition label (before : list string) (i : nat) (x : string) : string :=
  if String.eqb x "" then ("Unnamed: " ++ decimal i)%string
  else match occurrences x before with
       | O => x
       | k => (x ++ "." ++ decimal k)%string
       end.

Fixpoint labels_from (before : list string) (i : nat) (names : list string)
  : list string :=
  match names with
  | [] => []
  | x :: rest => label before i x :: labels_from (before ++ [x]) (S i) rest
  end.

(** The column labels for the fields of the header. *)
Definition header_labels (names : list string) : list string :=
  labels_from [] 0 names.

(** A header none of whose invented labels is the text of a column: on the
    others the versions of pandas invent different labels. *)
Definition plain_header (names : list string) : bool :=
  forallb (fun p => String.eqb (fst p) (snd p)
                    || negb (existsb (String.eqb (snd p)) names))
          (combine names (header_labels names)).

(** A table small enough for pandas to read it in one piece. *)
Definition one_chunk (recs : list (list string)) : bool :=
  (N.of_nat (length recs) * N.of_nat (list_max (map (@length string) recs))
   <=? 262144)%N.

(** [pd.read_csv(io.StringIO(text), sep="\t")] *)
Definition read_csv (text : string) : result DataFrame :=
  match tokenize text with
  | None => Raise (ParserError "Error tokenizing data")
  | Some [] => Raise EmptyDataError
  | Some (header :: data) =>
      match shape (length header) data with
      | None => Raise (ParserError "Error tokenizing data")
      | Some (w, recs) =>
          let k := w - length header in
          Ok {| columns := header_labels header;
                index := match k with
                         | O => None
                         | S _ => Some (map (firstn k) recs)
                         end;
                rows := map (skipn k) recs |}
      end
  end.

(** The texts on which [read_csv] is meant to be pandas: no carriage
    return and no NUL, a plain header, one chunk. *)
Definition in_domain (text : string) : bool :=
  (count cr text =? 0)%nat && (count nul text =? 0)%nat
  && match tokenize text with
     | Some (header :: data) =>
         plain_header header && one_chunk (header :: data)
     | _ => true
     end.

(** A reader that gives what the model gives wherever the model is meant
    to be pandas. *)
Definition reads_like_pandas (reader : string -> result DataFrame) : Prop :=
  forall text, in_domain text = true -> reader text = read_csv text.






End Pandas.

(** A plain reader of tab-separated text, to run the interpreters on
    concrete reports: the first line gives the column labels, every other
    non-empty line is a row, and a row longer than the header is refused. *)
Definition tsv_reader (text : string) : result DataFrame :=
  match splitlines text with
  | [] => Raise (ParserError "No columns to parse from file")
  | header :: body =>
      let cols := split tab header in
      let rs := map (split tab) (filter (fun l => negb (String.eqb l "")) body) in
      if forallb (fun r => (length r <=? length cols)%nat) rs
      then Ok {| columns := cols; index := None; rows := rs |}
      else Raise (ParserError "Error tokenizing data")
  end.

(** ** Vocabulary of the statements *)

Definition TAB : string := String tab "".
Definition NL : string := String lf "".

(** A line of the report that the parser takes for a module marker. *)
Definition is_marker (l : string) : bool := startswith (rstrip l) ">>".

(** The fields of a marker line: what follows [>>], cut at the tabs. *)
Definition marker_fields (l : string) : list string :=
  split tab (removeprefix (rstrip l) ">>").

(** The text a list of [key, value] items gives for key [k]: the value of
    the last item with that key. *)
Fixpoint last_value (items : list (list string)) (k : string) : option string :=
  match items with
  | [] => None
  | it :: rest =>
      match last_value rest k with
      | Some v => Some v
      | None =>
          match it with
          | [k'; v] => if String.eqb k' k then Some v else None
          | _ => None
          end
      end
  end.

(** The text of field [k] before coercion: the report's own value, except
    that [FastQC] holds the value of [##FastQC]. *)
Definition field_text (items : list (list string)) (k : string) : option string :=
  if String.eqb k "FastQC" then last_value items "##FastQC"
  else last_value items k.

(** What the [try] block leaves under a key whose value is the text [s]:
    the integer [int] reads, when it compares equal to the double [float]
    reads, and the text otherwise. *)
Definition coerced (max_str_digits : nat) (s : string) : value :=
  match int_of_str max_str_digits s with
  | Some n => if int_eq_float n (double_of_Z n) then VInt n else VStr s
  | None => VStr s
  end.

(** An item [dict] accepts: a list of exactly two strings. *)
Definition two_fields (it : list string) : bool := (length it =? 2)%nat.

(** A line with exactly one tab. *)
Definition one_tab (l : string) : bool := (count tab l =? 1)%nat.

(** A line whose key, the text before its first tab, is [k]. *)
Definition has_key (k : string) (l : string) : bool :=
  String.eqb (hd "" (split tab l)) k.

(** The fields still to visit hold the text read from the report. *)
Definition pending_text (ks : list string) (d : PyDict.dict value) : Prop :=
  forall k, In k ks -> exists s, PyDict.get d k = Some (VStr s).

(** The value under [k] once the loop has visited the keys [ks] of [d]. *)
Definition visited (max_str_digits : nat) (ks : list string)
  (d : PyDict.dict value) (k : string) : option value :=
  if existsb (String.eqb k) ks then
    if startswith k "#" then None
    else match PyDict.get d k with
         | Some (VStr s) => Some (coerced max_str_digits s)
         | o => o
         end
  else PyDict.get d k.

(** The integer a double is equal to, if any. *)
Definition Z_of_double (f : spec_float) : option Z :=
  match f with
  | S754_zero _ => Some 0%Z
  | S754_finite s m e =>
      if (0 <=? e)%Z then Some (cond_Zopp s (Zpos m * 2 ^ e))
      else if (Zpos m mod 2 ^ (- e) =? 0)%Z
           then Some (cond_Zopp s (Zpos m / 2 ^ (- e)))
           else None
  | S754_infinity _ | S754_nan => None
  end.

Fixpoint all_zeros (s : string) : bool :=
  match s with
  | EmptyString => true
  | String c s' => Ascii.eqb c "0"%char && all_zeros s'
  end.

(** The coercion policy in the words of the specification, for the
    comparison with [coerced].  "Parses as a floating-point number whose
    value is mathematically equal to some integer" is spelled out for the
    literals [digits.zeros] (with an optional sign and surrounding
    whitespace), which [float] reads as the double nearest to [digits];
    the other float literals are not covered by this definition. *)
Definition spec_float_integer (s : string) : option Z :=
  let s := trim s in
  let '(neg, body) :=
    match s with
    | String "-"%char r => (true, r)
    | String "+"%char r => (false, r)
    | _ => (false, s)
    end in
  match split "."%char body with
  | [ip; fp] =>
      match digits 0 0 false ip with
      | Some (v, _) =>
          if all_zeros fp
          then Z_of_double (double_of_Z (if neg then (- v)%Z else v))
          else None
      | None => None
      end
  | _ => None
  end.

Definition spec_coerced (max_str_digits : nat) (s : string) : value :=
  match int_of_str max_str_digits s with
  | Some n => VInt n
  | None =>
      match spec_float_integer s with
      | Some n => VInt n
      | None => VStr s
      end
  end.

(** A Result Set whose keys are distinct, each module stored under its
    own name with the class the registry gives that name. *)
Definition well_keyed (r : FastQCResults) : Prop :=
  NoDup (PyDict.keys (results r))
  /\ forall k m, PyDict.get (results r) k = Some m ->
                 name m = k /\ cls m = module_class_of k.

(** A text with every LF written as CR LF. *)
Fixpoint to_crlf (s : string) : string :=
  match s with
  | EmptyString => EmptyString
  | String c s' =>
      if Ascii.eqb c lf then String cr (String lf (to_crlf s'))
      else String c (to_crlf s')
  end.

(** The keys of a dictionary with one more key set. *)
Definition add_key (ks : list string) (k : string) : list string :=
  if existsb (String.eqb k) ks then ks else ks ++ [k].

(** One module of a report as lines: the lines before its header, the
    header, the lines up to its terminator, and the terminator. *)
Record block : Type := mkBlock {
  b_outside : list string;
  b_header : string;
  b_inside : list string;
  b_terminator : string
}.

Definition block_lines (b : block) : list string :=
  b_outside b ++ b_header b :: b_inside b ++ [b_terminator b].

Definition block_ok (b : block) : Prop :=
  Forall (fun l => is_marker l = false) (b_outside b)
  /\ is_marker (b_header b) = true
  /\ (2 <= length (marker_fields (b_header b)))%nat
  /\ Forall (fun l => is_marker l = false) (b_inside b)
  /\ rstrip (b_terminator b) = ">>END_MODULE".

(** The record the parser holds when the block closes. *)
Definition block_record (b : block) : FastQCModule :=
  {| cls := FastQCModule_class;
     name := nth 0 (marker_fields (b_header b)) "";
     data := DStr (join NL (map rstrip (b_outside b) ++ map rstrip (b_inside b)));
     status := nth 1 (marker_fields (b_header b)) "" |}.

(** Interpreting the record of a block and storing it. *)
Definition store_block (max_str_digits : nat)
  (read_csv : string -> result DataFrame) (r : FastQCResults) (b : block)
  : result FastQCResults :=
  let m := block_record b in
  sm <- from_module max_str_digits read_csv (module_class_of (name m)) m ;;
  Ok (results_setitem r (name m) sm).

(** * Properties *)

(** ** The runtime functions on sample inputs *)

Example rstrip_sample :
  rstrip (String "a" (String " " (String tab (String "028" (String lf ""))))) = "a".
Proof. reflexivity. Qed.

Example split_sample :
  split tab (String "a" (String tab (String "b" (String tab "")))) = ["a"; "b"; ""].
Proof. reflexivity. Qed.

Example splitlines_sample :
  splitlines (String "a" (String cr (String lf (String "b" (String lf
               (String lf (String "c" (String lf ""))))))))
  = ["a"; "b"; ""; "c"].
Proof. reflexivity. Qed.

Example iter_lines_sample :
  iter_lines (universal_newlines
                (String "a" (String cr (String lf (String "b" (String cr
                   (String "c" (String lf (String lf "d")))))))))
  = [String "a" (String lf ""); String "b" (String lf "");
     String "c" (String lf ""); String lf ""; "d"].
Proof. reflexivity. Qed.

Example int_of_str_samples :
  map (int_of_str 4300)
      [" -1_000 "; "007"; "+1"; "-0"; "_1"; "1_"; "1__0"; "- 1"; ""; "+";
       "1.0"; "1e3"; String "028" "1"]
  = [Some (-1000)%Z; Some 7%Z; Some 1%Z; Some 0%Z; None; None; None; None;
     None; None; None; None; None].
Proof. reflexivity. Qed.

Example double_of_Z_samples :
  map (fun n => int_eq_float n (double_of_Z n))
      [0; 10000; -42; 9007199254740992; 9007199254740993; 10 ^ 400]%Z
  = [true; true; true; true; false; false].
Proof. vm_compute. reflexivity. Qed.

(** ** Strings *)

Lemma split_nonempty (c : ascii) (s : string) : split c s <> [].
Proof.
  induction s as [|a s IH]; simpl; [discriminate|].
  destruct (Ascii.eqb a c); [discriminate|].
  destruct (split c s); discriminate.
Qed.

Lemma length_split (c : ascii) (s : string) :
  length (split c s) = S (count c s).
Proof.
  induction s as [|a s IH]; simpl; [reflexivity|].
  destruct (Ascii.eqb a c); simpl; [now rewrite IH|].
  destruct (split c s) eqn:E; simpl in *; [discriminate | exact IH].
Qed.

Lemma after_prefix_app (p s r : string) :
  after_prefix p s = Some r -> s = (p ++ r)%string.
Proof.
  revert s. induction p as [|a p IH]; intros s; simpl.
  - now intros [= ->].
  - destruct s as [|b s]; [discriminate|].
    destruct (Ascii.eqb_spec a b) as [->|]; [|discriminate].
    intros H. f_equal. now apply IH.
Qed.

(** ** Dictionaries *)

Section DictFacts.

Variable V : Type.
Implicit Types (d : PyDict.dict V) (k : string) (v : V).

Lemma get_setitem_eq d k v : PyDict.get (PyDict.setitem d k v) k = Some v.
Proof.
  induction d as [|[k' v'] d IH]; simpl.
  - now rewrite String.eqb_refl.
  - destruct (String.eqb k' k) eqn:E; simpl; rewrite E; [reflexivity | exact IH].
Qed.

Lemma get_setitem_neq d k k' v :
  k <> k' -> PyDict.get (PyDict.setitem d k v) k' = PyDict.get d k'.
Proof.
  intros Hne. induction d as [|[k0 v0] d IH]; simpl.
  - destruct (String.eqb_spec k k'); [contradiction | reflexivity].
  - destruct (String.eqb_spec k0 k) as [->|]; simpl.
    + destruct (String.eqb_spec k k'); [contradiction | reflexivity].
    + now rewrite IH.
Qed.

Lemma get_None_keys d k : PyDict.get d k = None <-> ~ In k (PyDict.keys d).
Proof.
  induction d as [|[k0 v0] d IH]; simpl; [tauto|].
  destruct (String.eqb_spec k0 k) as [->|Hne].
  - split; [discriminate | intros H; exfalso; apply H; now left].
  - rewrite IH. tauto.
Qed.

Lemma get_Some_keys d k v : PyDict.get d k = Some v -> In k (PyDict.keys d).
Proof.
  intros H. destruct (in_dec string_dec k (PyDict.keys d)) as [|Hn]; [assumption|].
  apply get_None_keys in Hn. congruence.
Qed.

Lemma keys_setitem d k v :
  PyDict.keys (PyDict.setitem d k v) =
  match PyDict.get d k with
  | Some _ => PyDict.keys d
  | None => PyDict.keys d ++ [k]
  end.
Proof.
  induction d as [|[k0 v0] d IH]; simpl; [reflexivity|].
  destruct (String.eqb k0 k); simpl; [reflexivity|].
  change (map fst (PyDict.setitem d k v)) with (PyDict.keys (PyDict.setitem d k v)).
  rewrite IH. now destruct (PyDict.get d k).
Qed.

Lemma NoDup_keys_setitem d k v :
  NoDup (PyDict.keys d) -> NoDup (PyDict.keys (PyDict.setitem d k v)).
Proof.
  intros H. rewrite keys_setitem.
  destruct (PyDict.get d k) eqn:E; [assumption|].
  apply get_None_keys in E.
  apply NoDup_app; [assumption | repeat constructor; intros [] | ].
  intros x Hx [<-|[]]. contradiction.
Qed.

Lemma keys_remove_subset d k x :
  In x (PyDict.keys (PyDict.remove d k)) -> In x (PyDict.keys d).
Proof.
  induction d as [|[k0 v0] d IH]; simpl; [tauto|].
  destruct (String.eqb k0 k); simpl; [tauto|].
  intros [->|H]; [now left | right; now apply IH].
Qed.

Lemma NoDup_keys_remove d k :
  NoDup (PyDict.keys d) -> NoDup (PyDict.keys (PyDict.remove d k)).
Proof.
  induction d as [|[k0 v0] d IH]; simpl; [trivial|].
  intros H. inversion H as [|? ? Hn Hd]; subst.
  destruct (String.eqb k0 k); simpl; [assumption|].
  constructor; [|now apply IH].
  intros Hin. apply Hn. eapply keys_remove_subset, Hin.
Qed.

Lemma get_remove_eq d k :
  NoDup (PyDict.keys d) -> PyDict.get (PyDict.remove d k) k = None.
Proof.
  induction d as [|[k0 v0] d IH]; simpl; [trivial|].
  intros H. inversion H as [|? ? Hn Hd]; subst.
  destruct (String.eqb_spec k0 k) as [->|Hne]; simpl.
  - now apply get_None_keys.
  - destruct (String.eqb_spec k0 k); [contradiction | now apply IH].
Qed.

Lemma get_remove_neq d k k' :
  k <> k' -> PyDict.get (PyDict.remove d k) k' = PyDict.get d k'.
Proof.
  intros Hne. induction d as [|[k0 v0] d IH]; simpl; [reflexivity|].
  destruct (String.eqb_spec k0 k) as [->|]; simpl.
  - destruct (String.eqb_spec k k'); [contradiction | reflexivity].
  - now rewrite IH.
Qed.

Lemma keys_remove d k :
  NoDup (PyDict.keys d) ->
  PyDict.keys (PyDict.remove d k) =
  filter (fun x => negb (String.eqb x k)) (PyDict.keys d).
Proof.
  induction d as [|[k0 v0] d IH]; simpl; [reflexivity|].
  intros H. inversion H as [|? ? Hn Hd]; subst.
  destruct (String.eqb_spec k0 k) as [->|Hne]; simpl.
  - symmetry. apply forallb_filter_id. apply forallb_forall.
    intros x Hx. destruct (String.eqb_spec x k) as [->|]; [contradiction | reflexivity].
  - f_equal. now apply IH.
Qed.

End DictFacts.

Lemma filter_twice {A : Type} (f g : A -> bool) (l : list A) :
  filter f (filter g l) = filter (fun x => g x && f x) l.
Proof.
  induction l as [|a l IH]; simpl; [reflexivity|].
  destruct (g a); simpl; [destruct (f a)|]; now rewrite IH.
Qed.

Lemma existsb_eqb_In (k : string) (ks : list string) :
  existsb (String.eqb k) ks = true <-> In k ks.
Proof.
  rewrite existsb_exists. split.
  - intros (x & Hx & E). apply String.eqb_eq in E. now subst.
  - intros H. exists k. split; [assumption | apply String.eqb_refl].
Qed.

(** ** The Key-Value interpreter *)

Section BasicStatistics.

Variable max_str_digits : nat.

Local Abbreviation coerce_key := (coerce_key max_str_digits).
Local Abbreviation coerce_loop := (coerce_loop max_str_digits).
Local Abbreviation visited := (visited max_str_digits).

Lemma dict_of_items_outcome items : forall d,
  match dict_of_items d items with
  | Ok _ => forallb two_fields items = true
  | Raise e => e = ValueError /\ forallb two_fields items = false
  end.
Proof.
  induction items as [|it items IH]; intros d; simpl; [reflexivity|].
  destruct it as [|k [|v [|w it]]]; simpl; try (split; reflexivity).
  apply IH.
Qed.

Lemma dict_of_items_get items : forall d d',
  dict_of_items d items = Ok d' ->
  forall k, PyDict.get d' k =
            match last_value items k with
            | Some v => Some (VStr v)
            | None => PyDict.get d k
            end.
Proof.
  induction items as [|it items IH]; intros d d'; simpl.
  - now intros [= ->].
  - destruct it as [|k0 [|v0 [|w it]]]; try discriminate.
    intros H k. rewrite (IH _ _ H k).
    destruct (last_value items k); [reflexivity|].
    destruct (String.eqb_spec k0 k) as [->|Hne].
    + apply get_setitem_eq.
    + now apply get_setitem_neq.
Qed.

Lemma dict_of_items_NoDup items : forall d d',
  dict_of_items d items = Ok d' ->
  NoDup (PyDict.keys d) -> NoDup (PyDict.keys d').
Proof.
  induction items as [|it items IH]; intros d d'; simpl.
  - now intros [= ->].
  - destruct it as [|k0 [|v0 [|w it]]]; try discriminate.
    intros H Hd. eapply IH; [exact H|]. now apply NoDup_keys_setitem.
Qed.

Lemma coerce_key_text d k s :
  PyDict.get d k = Some (VStr s) ->
  match coerce_key d k with
  | Ok d' => d' = match coerced max_str_digits s with
                  | VInt n => PyDict.setitem d k (VInt n)
                  | VStr _ => d
                  end
  | Raise e => e = ValueError /\ coerced max_str_digits s = VStr s
  end.
Proof.
  intros H. unfold coerce_key, PyDict.getitem, coerced. rewrite H. simpl.
  destruct (int_of_str max_str_digits s) as [n|]; simpl; [|split; reflexivity].
  now destruct (int_eq_float n (double_of_Z n)).
Qed.

Lemma coerce_loop_visited ks : forall d,
  NoDup ks -> NoDup (PyDict.keys d) -> pending_text ks d ->
  exists d',
    coerce_loop ks d = Ok d'
    /\ (forall k, PyDict.get d' k = visited ks d k)
    /\ PyDict.keys d' =
       filter (fun k => negb (existsb (String.eqb k) ks && startswith k "#"))
              (PyDict.keys d).
Proof.
  induction ks as [|k0 ks IH]; intros d Hks Hd Hp.
  - exists d. repeat split.
    simpl. symmetry. apply forallb_filter_id. now apply forallb_forall.
  - inversion Hks as [|? ? Hn Hks']; subst.
    destruct (Hp k0 (or_introl eq_refl)) as [s0 Hs0].
    simpl. destruct (startswith k0 "#") eqn:Hsw.
    + unfold PyDict.delitem. rewrite Hs0. simpl.
      destruct (IH (PyDict.remove d k0) Hks' (NoDup_keys_remove _ _ _ Hd))
        as (d' & Hrun & Hget & Hkeys).
      { intros k Hk. destruct (Hp k (or_intror Hk)) as [s Hs]. exists s.
        rewrite get_remove_neq; [assumption|]. intros ->. contradiction. }
      exists d'. split; [assumption|]. split.
      * intros k. rewrite Hget. unfold visited. simpl.
        destruct (String.eqb_spec k k0) as [->|Hne]; simpl.
        -- rewrite Hsw.
           destruct (existsb (String.eqb k0) ks) eqn:E.
           ++ apply existsb_eqb_In in E. contradiction.
           ++ now apply get_remove_eq.
        -- rewrite get_remove_neq by congruence. reflexivity.
      * rewrite Hkeys, keys_remove by assumption. rewrite filter_twice.
        apply filter_ext. intros k. simpl.
        destruct (String.eqb_spec k k0) as [->|Hne]; simpl; [now rewrite Hsw|].
        reflexivity.
    + pose proof (coerce_key_text d k0 s0 Hs0) as Hck.
      set (d1 := match coerced max_str_digits s0 with
                 | VInt n => PyDict.setitem d k0 (VInt n)
                 | VStr _ => d
                 end).
      assert (Hrun1 : match coerce_key d k0 with
                      | Ok d' => coerce_loop ks d'
                      | Raise ValueError => coerce_loop ks d
                      | Raise e => Raise e
                      end = coerce_loop ks d1).
      { destruct (coerce_key d k0) as [d2|e].
        - now subst d2.
        - destruct Hck as [-> Hc]. subst d1. now rewrite Hc. }
      rewrite Hrun1.
      assert (Hget1 : forall k, k <> k0 -> PyDict.get d1 k = PyDict.get d k).
      { intros k Hne. subst d1. destruct (coerced max_str_digits s0); [reflexivity|].
        apply get_setitem_neq. congruence. }
      assert (Hget0 : PyDict.get d1 k0 = Some (coerced max_str_digits s0)).
      { subst d1. destruct (coerced max_str_digits s0) eqn:E.
        - pose proof E as E'. unfold coerced in E'.
          destruct (int_of_str max_str_digits s0) as [n|];
            [destruct (int_eq_float n (double_of_Z n))|]; congruence.
        - apply get_setitem_eq. }
      assert (Hkeys1 : PyDict.keys d1 = PyDict.keys d).
      { subst d1. destruct (coerced max_str_digits s0); [reflexivity|].
        rewrite keys_setitem, Hs0. reflexivity. }
      destruct (IH d1 Hks') as (d' & Hrun & Hget & Hkeys).
      { now rewrite Hkeys1. }
      { intros k Hk. destruct (Hp k (or_intror Hk)) as [s Hs]. exists s.
        rewrite Hget1; [assumption|]. intros ->. contradiction. }
      exists d'. split; [assumption|]. split.
      * intros k. rewrite Hget. unfold visited. simpl.
        destruct (String.eqb_spec k k0) as [->|Hne]; simpl.
        -- rewrite Hsw, Hs0.
           destruct (existsb (String.eqb k0) ks) eqn:E.
           ++ apply existsb_eqb_In in E. contradiction.
           ++ assumption.
        -- now rewrite Hget1.
      * rewrite Hkeys, Hkeys1. apply filter_ext. intros k. simpl.
        destruct (String.eqb_spec k k0) as [->|Hne]; simpl; [|reflexivity].
        rewrite Hsw. now rewrite !andb_false_r.
Qed.

End BasicStatistics.

Section BasicStatisticsOutcome.

Variable max_str_digits : nat.

Lemma two_fields_one_tab (lines : list string) :
  forallb two_fields (map (split tab) lines) = forallb one_tab lines.
Proof.
  induction lines as [|l lines IH]; simpl; [reflexivity|].
  rewrite IH. f_equal. unfold two_fields, one_tab.
  rewrite length_split. reflexivity.
Qed.

Lemma last_value_has_key (k : string) (lines : list string) :
  forallb two_fields (map (split tab) lines) = true ->
  match last_value (map (split tab) lines) k with
  | Some _ => existsb (has_key k) lines = true
  | None => existsb (has_key k) lines = false
  end.
Proof.
  induction lines as [|l lines IH]; simpl; [reflexivity|].
  intros H. apply andb_prop in H as [Hl Hr]. specialize (IH Hr).
  destruct (last_value (map (split tab) lines) k).
  - rewrite IH. apply orb_true_r.
  - rewrite IH, orb_false_r. unfold has_key.
    destruct (split tab l) as [|k0 [|v0 [|w it]]]; try discriminate.
    simpl. now destruct (String.eqb k0 k).
Qed.

(** The outcome of the Key-Value interpreter on a text body, in terms of
    the items the body is cut into. *)
Lemma basic_statistics_outcome (m : FastQCModule) (body : string) :
  data m = DStr body ->
  let items := map (split tab) (splitlines body) in
  match BasicStatisticsModule_from_module max_str_digits m with
  | Ok m' =>
      forallb two_fields items = true
      /\ last_value items "##FastQC" <> None
      /\ exists d,
          m' = {| cls := BasicStatisticsModule_class; name := name m;
                  data := DDict d; status := status m |}
          /\ NoDup (PyDict.keys d)
          /\ forall k,
              PyDict.get d k =
              if startswith k "#" then None
              else option_map (coerced max_str_digits) (field_text items k)
  | Raise e =>
      (dict_of_items [] items = Raise e
       /\ e = ValueError /\ forallb two_fields items = false)
      \/ (exists d1, dict_of_items [] items = Ok d1
                     /\ PyDict.getitem d1 "##FastQC" = Raise e
                     /\ e = KeyError "##FastQC"
                     /\ forallb two_fields items = true
                     /\ last_value items "##FastQC" = None)
  end.
Proof.
  intros Hdata items. unfold BasicStatisticsModule_from_module.
  rewrite Hdata. fold items.
  pose proof (dict_of_items_outcome items []) as Hout.
  destruct (dict_of_items [] items) as [d1|e] eqn:Hitems; simpl;
    [|left; split; [reflexivity | exact Hout]].
  pose proof (dict_of_items_get items _ _ Hitems) as Hget1.
  assert (Hnd1 : NoDup (PyDict.keys d1)).
  { eapply dict_of_items_NoDup; [exact Hitems | constructor]. }
  assert (Hfq : PyDict.getitem d1 "##FastQC" =
                match last_value items "##FastQC" with
                | Some v => Ok (VStr v)
                | None => Raise (KeyError "##FastQC")
                end).
  { unfold PyDict.getitem. rewrite (Hget1 "##FastQC").
    now destruct (last_value items "##FastQC"). }
  rewrite Hfq.
  destruct (last_value items "##FastQC") as [v|] eqn:Hv; simpl;
    [|right; exists d1; repeat split; assumption].
  set (d0 := PyDict.setitem d1 "FastQC" (VStr v)).
  assert (Hget0 : forall k, PyDict.get d0 k = option_map VStr (field_text items k)).
  { intros k. unfold field_text. subst d0.
    destruct (String.eqb_spec k "FastQC") as [->|Hne].
    - rewrite get_setitem_eq, Hv. reflexivity.
    - rewrite get_setitem_neq by congruence. rewrite Hget1.
      now destruct (last_value items k). }
  destruct (coerce_loop_visited max_str_digits (PyDict.keys d0) d0)
    as (d & Hrun & Hget & Hkeys).
  { now apply NoDup_keys_setitem. }
  { now apply NoDup_keys_setitem. }
  { intros k Hk. rewrite Hget0.
    destruct (field_text items k) as [s|] eqn:E; [now exists s|].
    exfalso. revert Hk. apply get_None_keys. rewrite Hget0, E. reflexivity. }
  rewrite Hrun. simpl. split; [assumption|]. split; [discriminate|].
  exists d. split; [reflexivity|]. split.
  - rewrite Hkeys. apply NoDup_filter. now apply NoDup_keys_setitem.
  - intros k. rewrite Hget. unfold visited. rewrite Hget0.
    destruct (existsb (String.eqb k) (PyDict.keys d0)) eqn:E.
    + destruct (startswith k "#"); [reflexivity|].
      now destruct (field_text items k).
    + assert (Hn : PyDict.get d0 k = None).
      { apply get_None_keys. intros Hin. apply existsb_eqb_In in Hin. congruence. }
      rewrite Hget0 in Hn. destruct (field_text items k); [discriminate|].
      now destruct (startswith k "#").
Qed.

End BasicStatisticsOutcome.

(** ** Integers that are doubles *)

Section Doubles.

Local Open Scope Z_scope.

Lemma digits2_pos_iter_xO (m p : positive) :
digits2_pos (Pos.iter xO m p) = (digits2_pos m + p)%positive.
Proof.
induction p as [|p IH] using Pos.peano_ind.
- simpl. lia.
- rewrite Pos.iter_succ. simpl. rewrite IH. lia.
Qed.

Lemma Zpos_iter_xO (m p : positive) :
Zpos (Pos.iter xO m p) = Zpos m * 2 ^ Zpos p.
Proof.
induction p as [|p IH] using Pos.peano_ind.
- simpl. lia.
- rewrite Pos.iter_succ, Pos2Z.inj_succ, Z.pow_succ_r by lia.
  rewrite Pos2Z.inj_xO, IH. lia.
Qed.

Lemma digits2_pos_lower (m : positive) :
2 ^ Zpos (digits2_pos m) <= 2 * Zpos m.
Proof.
induction m as [m IH|m IH|]; simpl digits2_pos.
- rewrite Pos2Z.inj_succ, Z.pow_succ_r by lia. lia.
- rewrite Pos2Z.inj_succ, Z.pow_succ_r by lia. lia.
- simpl. lia.
Qed.

Lemma digits2_pos_small (m : positive) :
Zpos m < 2 ^ 53 -> Zpos (digits2_pos m) <= 53.
Proof.
intros H. destruct (Z_le_gt_dec (Zpos (digits2_pos m)) 53) as [|Hgt]; [assumption|].
exfalso. pose proof (digits2_pos_lower m) as Hl.
assert (2 ^ 54 <= 2 ^ Zpos (digits2_pos m)) by (apply Z.pow_le_mono_r; lia).
change (2 ^ 54) with (2 * 2 ^ 53) in *. lia.
Qed.

Lemma shr_fexp_canonical (mz : positive) (ez : Z) :
Zpos (digits2_pos mz) = 53 -> -1074 <= ez ->
shr_fexp 53 1024 (Zpos mz) ez loc_Exact =
(Build_shr_record (Zpos mz) false false, ez).
Proof.
intros Hd He. unfold shr_fexp.
replace (fexp 53 1024 (Zdigits2 (Zpos mz) + ez) - ez) with 0; [reflexivity|].
unfold fexp, emin. simpl Zdigits2. rewrite Hd. lia.
Qed.

Lemma binary_round_aux_canonical (s : bool) (mz : positive) (ez : Z) :
Zpos (digits2_pos mz) = 53 -> -1074 <= ez <= 971 ->
binary_round_aux 53 1024 s (Zpos mz) ez loc_Exact = S754_finite s mz ez.
Proof.
intros Hd He. unfold binary_round_aux.
rewrite shr_fexp_canonical by lia. simpl.
rewrite shr_fexp_canonical by lia. simpl.
destruct (Z.leb_spec ez 971); [reflexivity | lia].
Qed.

Lemma binary_round_small (s : bool) (m : positive) :
Zpos m < 2 ^ 53 ->
exists mz ez, binary_round 53 1024 s m 0 = S754_finite s mz ez
              /\ -52 <= ez <= 0 /\ Zpos mz = Zpos m * 2 ^ (- ez).
Proof.
intros H. pose proof (digits2_pos_small m H) as Hd.
unfold binary_round, shl_align.
replace (fexp 53 1024 (Zpos (digits2_pos m) + 0) - 0) with (Zpos (digits2_pos m) - 53)
  by (unfold fexp, emin; lia).
replace (fexp 53 1024 (Zpos (digits2_pos m) + 0)) with (Zpos (digits2_pos m) - 53)
  by (unfold fexp, emin; lia).
destruct (Zpos (digits2_pos m) - 53) as [|p|p] eqn:E; try lia.
- exists m, 0. split; [apply binary_round_aux_canonical; lia|]. simpl. lia.
- exists (Pos.iter xO m p), (Zneg p). split; [|split].
  + apply binary_round_aux_canonical; [|lia].
    rewrite digits2_pos_iter_xO. lia.
  + lia.
  + rewrite Zpos_iter_xO. reflexivity.
Qed.

Lemma double_of_Z_exact (n : Z) :
Z.abs n < 2 ^ 53 -> int_eq_float n (double_of_Z n) = true.
Proof.
intros H. unfold double_of_Z, binary_normalize.
destruct n as [|m|m]; [reflexivity| |].
- destruct (binary_round_small false m) as (mz & ez & -> & He & Hm); [exact H|].
  unfold int_eq_float, cond_Zopp.
  destruct (Z.leb_spec 0 ez).
  + assert (ez = 0) as -> by lia. apply Z.eqb_eq. simpl in *. lia.
  + apply Z.eqb_eq. lia.
- destruct (binary_round_small true m) as (mz & ez & -> & He & Hm); [exact H|].
  unfold int_eq_float, cond_Zopp.
  destruct (Z.leb_spec 0 ez).
  + assert (ez = 0) as -> by lia. apply Z.eqb_eq. simpl in *. lia.
  + apply Z.eqb_eq. lia.
Qed.

End Doubles.

Lemma coerced_int (max_str_digits : nat) (s : string) (n : Z) :
  int_of_str max_str_digits s = Some n -> (Z.abs n < 2 ^ 53)%Z ->
  coerced max_str_digits s = VInt n.
Proof.
  intros Hs Hn. unfold coerced. rewrite Hs.
  now rewrite double_of_Z_exact.
Qed.

Lemma coerced_text (max_str_digits : nat) (s : string) :
  int_of_str max_str_digits s = None -> coerced max_str_digits s = VStr s.
Proof. intros Hs. unfold coerced. now rewrite Hs. Qed.

(** ** The report parser *)

Section Parser.

Variable max_str_digits : nat.
Variable read_csv : string -> result DataFrame.

Local Abbreviation from_module := (from_module max_str_digits read_csv).
Local Abbreviation parse_line := (parse_line max_str_digits read_csv).
Local Abbreviation parse_lines := (parse_lines max_str_digits read_csv).
Local Abbreviation parse_report := (parse_report max_str_digits read_csv).

Lemma parse_lines_app (a b : list string) : forall st,
  parse_lines st (a ++ b) = st' <- parse_lines st a ;; parse_lines st' b.
Proof.
  induction a as [|l a IH]; intros st; simpl; [reflexivity|].
  destruct (parse_line st l) as [st1|e]; simpl; [apply IH | reflexivity].
Qed.

Lemma parse_line_body (st : parser_state) (l : string) :
  is_marker l = false ->
  parse_line st l =
  Ok {| mod_ := mod_ st; data_lines := data_lines st ++ [rstrip l];
        parsed := parsed st |}.
Proof. unfold is_marker, parse_line. now intros ->. Qed.

Lemma parse_lines_body (ls : list string) : forall st,
  Forall (fun l => is_marker l = false) ls ->
  parse_lines st ls =
  Ok {| mod_ := mod_ st; data_lines := data_lines st ++ map rstrip ls;
        parsed := parsed st |}.
Proof.
  induction ls as [|l ls IH]; intros st H; simpl.
  - rewrite app_nil_r. now destruct st.
  - inversion H as [|? ? Hl Hls]; subst.
    rewrite parse_line_body by assumption. simpl.
    rewrite IH by assumption. simpl. now rewrite <- app_assoc.
Qed.

Lemma parse_line_open (st : parser_state) (l n s : string) (more : list string) :
  mod_ st = None -> is_marker l = true -> marker_fields l = n :: s :: more ->
  parse_line st l =
  Ok {| mod_ := Some {| cls := FastQCModule_class; name := n;
                        data := DNone; status := s |};
        data_lines := data_lines st; parsed := parsed st |}.
Proof.
  unfold is_marker, marker_fields, parse_line.
  intros -> -> ->. reflexivity.
Qed.

Lemma terminator_is_marker (l : string) :
  rstrip l = ">>END_MODULE" -> is_marker l = true.
Proof. unfold is_marker. now intros ->. Qed.

Lemma parse_line_close (st : parser_state) (m : FastQCModule) (l : string) :
  mod_ st = Some m -> rstrip l = ">>END_MODULE" ->
  parse_line st l =
  sm <- from_module (module_class_of (name m))
          (set_data m (DStr (join NL (data_lines st)))) ;;
  Ok {| mod_ := None; data_lines := [];
        parsed := results_setitem (parsed st) (name m) sm |}.
Proof.
  unfold parse_line. intros -> ->. reflexivity.
Qed.

Lemma parse_line_nested (st : parser_state) (m : FastQCModule) (l : string) :
  mod_ st = Some m -> is_marker l = true -> rstrip l <> ">>END_MODULE" ->
  parse_line st l = Raise AssertionError.
Proof.
  unfold is_marker, startswith, removeprefix, parse_line.
  intros -> Hm Hne. unfold startswith, removeprefix.
  destruct (after_prefix ">>" (rstrip l)) as [r|] eqn:E; [|discriminate].
  apply after_prefix_app in E.
  destruct (String.eqb_spec r "END_MODULE") as [->|]; [|reflexivity].
  contradiction.
Qed.

Lemma parse_line_unmatched (st : parser_state) (l : string) :
  mod_ st = None -> rstrip l = ">>END_MODULE" ->
  parse_line st l = Raise IndexError.
Proof.
  unfold parse_line. intros -> ->. reflexivity.
Qed.

Lemma module_class_of_unmapped (n : string) :
  n <> "Overrepresented sequences" -> n <> "Basic Statistics" ->
  module_class_of n = FastQCModule_class.
Proof.
  intros H1 H2. unfold module_class_of, module_classes. cbn [PyDict.get].
  destruct (String.eqb_spec "Overrepresented sequences" n); [congruence|].
  destruct (String.eqb_spec "Basic Statistics" n); [congruence|].
  reflexivity.
Qed.

End Parser.

(** * The claims *)

Section ParserClaims.

Variable max_str_digits : nat.
Variable read_csv : string -> result DataFrame.

Local Abbreviation from_module := (from_module max_str_digits read_csv).
Local Abbreviation parse_line := (parse_line max_str_digits read_csv).
Local Abbreviation parse_lines := (parse_lines max_str_digits read_csv).
Local Abbreviation parse_report := (parse_report max_str_digits read_csv).
Local Abbreviation parse_from_file := (parse_from_file max_str_digits read_csv).

(** C1 (amended).  When the lines before a module header parse and leave
    the parser outside a module, and the header (with a name and a status)
    is followed by non-marker lines only up to the end of the input, then
    [parse_from_file] raises nothing: it returns the Result Set built from
    the lines before the header, the same as for the report cut before the
    header.  The loop ends inside the module, whose record and body lines
    are dropped. *)
Theorem unterminated_module_is_dropped
  (content : string) (pre body more : list string) (hdr n s : string)
  (st0 : parser_state) :
  iter_lines (universal_newlines content) = pre ++ hdr :: body ->
  parse_lines initial_state pre = Ok st0 ->
  mod_ st0 = None ->
  is_marker hdr = true ->
  marker_fields hdr = n :: s :: more ->
  Forall (fun l => is_marker l = false) body ->
  parse_from_file content = Ok (parsed st0)
  /\ parse_report pre = Ok (parsed st0)
  /\ parse_lines initial_state (pre ++ hdr :: body) =
     Ok {| mod_ := Some {| cls := FastQCModule_class; name := n;
                           data := DNone; status := s |};
           data_lines := data_lines st0 ++ map rstrip body;
           parsed := parsed st0 |}.
Proof.
  intros Hlines Hpre Hout Hm Hf Hbody.
  assert (Hrun : parse_lines initial_state (pre ++ hdr :: body) =
     Ok {| mod_ := Some {| cls := FastQCModule_class; name := n;
                           data := DNone; status := s |};
           data_lines := data_lines st0 ++ map rstrip body;
           parsed := parsed st0 |}).
  { rewrite parse_lines_app, Hpre. simpl.
    rewrite (parse_line_open _ _ st0 hdr n s more) by assumption. simpl.
    now rewrite parse_lines_body by assumption. }
  split; [|split; [|exact Hrun]].
  - unfold parse_from_file, parse_report.
    rewrite Hlines, Hrun. reflexivity.
  - unfold parse_report. now rewrite Hpre.
Qed.

(** C4.  When the lines before a marker line parse, then: if they leave
    the parser inside a module and the marker is not the terminator (a new
    module header), the assertion fails; if they leave it outside a module
    and the marker is the terminator, reading the status of the header
    fails.  Either way [parse_from_file] raises, whatever follows. *)
Theorem inconsistent_markers_raise
  (content : string) (pre post : list string) (l : string)
  (st : parser_state) :
  iter_lines (universal_newlines content) = pre ++ l :: post ->
  parse_lines initial_state pre = Ok st ->
  (mod_ st <> None -> is_marker l = true -> rstrip l <> ">>END_MODULE" ->
   parse_from_file content = Raise AssertionError)
  /\ (mod_ st = None -> rstrip l = ">>END_MODULE" ->
      parse_from_file content = Raise IndexError).
Proof.
  intros Hlines Hpre.
  unfold parse_from_file, parse_report.
  rewrite Hlines, parse_lines_app, Hpre. simpl. split.
  - intros Hin Hm Hne. destruct (mod_ st) as [m|] eqn:E; [|contradiction].
    now rewrite (parse_line_nested _ _ st m l).
  - intros Hout Ht. now rewrite parse_line_unmatched.
Qed.

(** C7.  For a module name other than the two registered ones, the
    registry answers the base class, whose [from_module] returns the
    record with its name, data and status as they are; so closing such a
    module always succeeds and stores, under its name, the record with
    the accumulated lines joined by newlines as raw body. *)
Theorem unmapped_module_passes_through (n : string) :
  n <> "Overrepresented sequences" -> n <> "Basic Statistics" ->
  (forall c d s,
      from_module (module_class_of n)
        {| cls := c; name := n; data := d; status := s |} =
      Ok {| cls := FastQCModule_class; name := n; data := d; status := s |})
  /\ (forall st m term,
         mod_ st = Some m -> name m = n -> rstrip term = ">>END_MODULE" ->
         parse_line st term =
         Ok {| mod_ := None; data_lines := [];
               parsed :=
                 results_setitem (parsed st) n
                   {| cls := FastQCModule_class; name := n;
                      data := DStr (join NL (data_lines st));
                      status := status m |} |}).
Proof.
  intros H1 H2. pose proof (module_class_of_unmapped n H1 H2) as Hc. split.
  - intros c d s. now rewrite Hc.
  - intros st m term Hm Hn Ht.
    rewrite (parse_line_close _ _ st m term Hm Ht).
    rewrite Hn, Hc. simpl. now rewrite Hn.
Qed.

(** C10.  Non-marker lines met outside a module raise nothing and are
    kept: they are appended (right-stripped) to the accumulated lines, and
    when the next module closes its body is the accumulated lines, the
    outside lines and then the module's own lines, joined by newlines.
    The state left by a close has no accumulated lines, as the initial
    state. *)
Theorem outside_lines_join_next_module
  (pre outside inside more : list string) (hdr n s term : string)
  (st0 : parser_state) :
  parse_lines initial_state pre = Ok st0 ->
  mod_ st0 = None ->
  Forall (fun l => is_marker l = false) outside ->
  is_marker hdr = true ->
  marker_fields hdr = n :: s :: more ->
  Forall (fun l => is_marker l = false) inside ->
  rstrip term = ">>END_MODULE" ->
  parse_lines initial_state (pre ++ outside) =
    Ok {| mod_ := None;
          data_lines := data_lines st0 ++ map rstrip outside;
          parsed := parsed st0 |}
  /\ parse_lines initial_state (pre ++ outside ++ hdr :: inside ++ [term]) =
     (sm <- from_module (module_class_of n)
              {| cls := FastQCModule_class; name := n;
                 data := DStr (join NL (data_lines st0 ++ map rstrip outside
                                        ++ map rstrip inside));
                 status := s |} ;;
      Ok {| mod_ := None; data_lines := [];
            parsed := results_setitem (parsed st0) n sm |})
  /\ data_lines initial_state = [].
Proof.
  intros Hpre Hout Ho Hm Hf Hi Ht.
  assert (Hrun : parse_lines initial_state (pre ++ outside) =
    Ok {| mod_ := None;
          data_lines := data_lines st0 ++ map rstrip outside;
          parsed := parsed st0 |}).
  { rewrite parse_lines_app, Hpre. simpl.
    rewrite parse_lines_body by assumption. now rewrite Hout. }
  split; [exact Hrun|]. split; [|reflexivity].
  rewrite app_assoc, parse_lines_app, Hrun. simpl.
  rewrite (parse_line_open _ _ _ hdr n s more) by (assumption || reflexivity).
  simpl. rewrite parse_lines_app, parse_lines_body by assumption. simpl.
  erewrite parse_line_close; [|reflexivity | exact Ht].
  unfold set_data. simpl. rewrite <- app_assoc.
  now destruct (from_module _ _).
Qed.

End ParserClaims.

Section InterpreterClaims.

Variable max_str_digits : nat.
Variable read_csv : string -> result DataFrame.

Local Abbreviation from_module := (from_module max_str_digits read_csv).

(** C2 (amended).  The Key-Value interpreter fails only while cutting the
    body into items or fetching [##FastQC]; the coercion loop never
    raises.  In its result no key starting with [#] is left, and every
    other field holds [coerced] of its text: the integer [int] reads from
    it when that integer compares equal to the double [float] reads (as
    every integer below 2^53 in magnitude does), and the text itself
    otherwise, in particular whenever [int] rejects it. *)
Theorem coercion_policy (c : module_class) (n body st : string) :
  let items := map (split tab) (splitlines body) in
  match from_module BasicStatisticsModule_class
          {| cls := c; name := n; data := DStr body; status := st |} with
  | Ok m' =>
      exists d,
        data m' = DDict d
        /\ forall k,
            PyDict.get d k =
            if startswith k "#" then None
            else option_map (coerced max_str_digits) (field_text items k)
  | Raise e =>
      dict_of_items [] items = Raise e
      \/ exists d, dict_of_items [] items = Ok d
                   /\ PyDict.getitem d "##FastQC" = Raise e
  end
  /\ (forall s z, int_of_str max_str_digits s = Some z ->
                  (Z.abs z < 2 ^ 53)%Z ->
                  coerced max_str_digits s = VInt z)
  /\ (forall s z, coerced max_str_digits s = VInt z ->
                  int_of_str max_str_digits s = Some z
                  /\ int_eq_float z (double_of_Z z) = true)
  /\ (forall s, int_of_str max_str_digits s = None ->
                coerced max_str_digits s = VStr s).
Proof.
  intros items. split; [|split; [|split]].
  - pose proof (basic_statistics_outcome max_str_digits
                  {| cls := c; name := n; data := DStr body; status := st |}
                  body eq_refl) as H.
    cbv zeta in H. fold items in H.
    change (from_module BasicStatisticsModule_class
              {| cls := c; name := n; data := DStr body; status := st |})
      with (BasicStatisticsModule_from_module max_str_digits
              {| cls := c; name := n; data := DStr body; status := st |}).
    destruct (BasicStatisticsModule_from_module max_str_digits _) as [m'|e].
    + destruct H as (_ & _ & d & -> & _ & Hget). exists d. split; [reflexivity|].
      exact Hget.
    + destruct H as [(H & _)|(d1 & H1 & H2 & _)]; [now left|].
      right. now exists d1.
  - apply coerced_int.
  - intros s z. unfold coerced.
    destruct (int_of_str max_str_digits s) as [z'|]; [|discriminate].
    destruct (int_eq_float z' (double_of_Z z')) eqn:E; [|discriminate].
    intros [= <-]. now split.
  - apply coerced_text.
Qed.

(** C3 (amended).  On a text body the Key-Value interpreter succeeds
    exactly when every line of the body has exactly one tab and some line
    has the key [##FastQC].  It raises [ValueError] when some line has no
    tab or more than one, and [KeyError] when the lines are well formed
    but none has the key [##FastQC] (as for an empty body). *)
Theorem key_value_failures (c : module_class) (n body st : string) :
  let lines := splitlines body in
  match from_module BasicStatisticsModule_class
          {| cls := c; name := n; data := DStr body; status := st |} with
  | Ok _ =>
      forallb one_tab lines = true
      /\ existsb (has_key "##FastQC") lines = true
  | Raise e =>
      (e = ValueError /\ forallb one_tab lines = false)
      \/ (e = KeyError "##FastQC"
          /\ forallb one_tab lines = true
          /\ existsb (has_key "##FastQC") lines = false)
  end.
Proof.
  intros lines.
  pose proof (basic_statistics_outcome max_str_digits
                {| cls := c; name := n; data := DStr body; status := st |}
                body eq_refl) as H.
  cbv zeta in H. fold lines in H. rewrite two_fields_one_tab in H.
  change (from_module BasicStatisticsModule_class
            {| cls := c; name := n; data := DStr body; status := st |})
    with (BasicStatisticsModule_from_module max_str_digits
            {| cls := c; name := n; data := DStr body; status := st |}).
  destruct (BasicStatisticsModule_from_module max_str_digits _) as [m'|e].
  - destruct H as (Hall & Hv & _). split; [assumption|].
    pose proof (last_value_has_key "##FastQC" lines) as Hk.
    rewrite two_fields_one_tab in Hk. specialize (Hk Hall).
    destruct (last_value (map (split tab) lines) "##FastQC"); [assumption|].
    now contradiction Hv.
  - destruct H as [(_ & He & Hall)|(d1 & _ & _ & He & Hall & Hv)].
    + left. now split.
    + right. split; [assumption|]. split; [assumption|].
      pose proof (last_value_has_key "##FastQC" lines) as Hk.
      rewrite two_fields_one_tab in Hk. specialize (Hk Hall).
      now rewrite Hv in Hk.
Qed.

(** C5.  The Basic Statistics record with the body lines
    [##FastQC<TAB>0.11.9], [#Encoding<TAB>Sanger] and
    [Total Sequences<TAB>10000] is interpreted as the Key-Value module
    whose fields are [Total Sequences], the integer 10000, and [FastQC],
    the text [0.11.9], and nothing else: neither [##FastQC] nor
    [#Encoding] is a key of it.  The same module is what the parser
    stores for a report made of this one module. *)
Theorem basic_statistics_example :
  let body := ("##FastQC" ++ TAB ++ "0.11.9" ++ NL
               ++ "#Encoding" ++ TAB ++ "Sanger" ++ NL
               ++ "Total Sequences" ++ TAB ++ "10000")%string in
  let fields := [("Total Sequences", VInt 10000); ("FastQC", VStr "0.11.9")] in
  let parsed_module :=
    {| cls := BasicStatisticsModule_class; name := "Basic Statistics";
       data := DDict fields; status := "pass" |} in
  from_module BasicStatisticsModule_class
    {| cls := FastQCModule_class; name := "Basic Statistics";
       data := DStr body; status := "pass" |} = Ok parsed_module
  /\ PyDict.get fields "FastQC" = Some (VStr "0.11.9")
  /\ PyDict.get fields "Total Sequences" = Some (VInt 10000)
  /\ PyDict.get fields "##FastQC" = None
  /\ PyDict.get fields "#Encoding" = None
  /\ PyDict.keys fields = ["Total Sequences"; "FastQC"]
  /\ parse_from_file max_str_digits read_csv
       (">>Basic Statistics" ++ TAB ++ "pass" ++ NL ++ body ++ NL
        ++ ">>END_MODULE" ++ NL)%string
     = Ok {| modules := [("Basic Statistics", parsed_module)] |}.
Proof.
  cbv zeta. repeat split; vm_compute; reflexivity.
Qed.

(** C8.  Whichever interpreter builds a module from a record, the module
    has the name and the status of the record (and the class of the
    interpreter); the default interpreter always builds one. *)
Theorem interpreters_keep_name_and_status (c : module_class) (m : FastQCModule) :
  match from_module c m with
  | Ok m' => name m' = name m /\ status m' = status m /\ cls m' = c
  | Raise _ => c <> FastQCModule_class
  end.
Proof.
  destruct c; simpl.
  - repeat split.
  - unfold OverrepresentedSequencesModule_from_module.
    destruct (read_csv_or_empty read_csv (data m)); simpl;
      [repeat split | discriminate].
  - unfold BasicStatisticsModule_from_module.
    destruct (data m); try discriminate.
    destruct (dict_of_items _ _); simpl; [|discriminate].
    destruct (PyDict.getitem _ _); simpl; [|discriminate].
    destruct (coerce_loop _ _ _); simpl; [repeat split | discriminate].
Qed.

(** C9.  Looking up a name that is not a key of the Result Set raises
    [KeyError] with that name and leaves the Result Set as it was, so
    that every module it holds can still be looked up afterwards. *)
Theorem lookup_of_absent_module (r : FastQCResults) (k : string) :
  ~ In k (PyDict.keys (results r)) ->
  results_getitem r k = (Raise (KeyError k), r)
  /\ forall k' m, PyDict.get (results r) k' = Some m ->
                  fst (results_getitem (snd (results_getitem r k)) k') = Ok m.
Proof.
  intros H. apply get_None_keys in H.
  unfold results_getitem, PyDict.getitem. rewrite H. split; [reflexivity|].
  intros k' m Hm. simpl. now rewrite Hm.
Qed.

End InterpreterClaims.

(** ** The claims on concrete reports

    The interpreter's digit limit is at its default, 4300, and the
    tab-separated reader is [tsv_reader]. *)

(** C1, counterexample.  A report with a closed module followed by a module
    that is opened and never terminated: [parse_from_file] does not raise,
    it returns the Result Set holding the first module. *)
Lemma unterminated_module_counterexample :
  let content :=
    (">>Per base sequence quality" ++ TAB ++ "pass" ++ NL
     ++ "#Base" ++ TAB ++ "Mean" ++ NL
     ++ "1" ++ TAB ++ "32.0" ++ NL
     ++ ">>END_MODULE" ++ NL
     ++ ">>Per tile sequence quality" ++ TAB ++ "warn" ++ NL
     ++ "#Tile" ++ TAB ++ "Base" ++ TAB ++ "Mean" ++ NL)%string in
  let lines := iter_lines (universal_newlines content) in
  map is_marker lines = [true; false; false; true; true; false]
  /\ map rstrip (skipn 3 lines) =
     [">>END_MODULE";
      (">>Per tile sequence quality" ++ TAB ++ "warn")%string;
      ("#Tile" ++ TAB ++ "Base" ++ TAB ++ "Mean")%string]
  /\ parse_from_file 4300 tsv_reader content =
     Ok {| modules :=
             [("Per base sequence quality",
               {| cls := FastQCModule_class;
                  name := "Per base sequence quality";
                  data := DStr ("#Base" ++ TAB ++ "Mean" ++ NL
                                ++ "1" ++ TAB ++ "32.0")%string;
                  status := "pass" |})] |}.
Proof. cbv zeta. repeat split; vm_compute; reflexivity. Qed.

Lemma unterminated_module_witness :
  let pre := [(">>Per base sequence quality" ++ TAB ++ "pass" ++ NL)%string;
              ("1" ++ TAB ++ "32.0" ++ NL)%string;
              (">>END_MODULE" ++ NL)%string] in
  let hdr := (">>Per tile sequence quality" ++ TAB ++ "warn" ++ NL)%string in
  let body := [("#Tile" ++ TAB ++ "Base" ++ TAB ++ "Mean" ++ NL)%string] in
  let closed :=
    {| modules :=
         [("Per base sequence quality",
           {| cls := FastQCModule_class; name := "Per base sequence quality";
              data := DStr ("1" ++ TAB ++ "32.0")%string; status := "pass" |})] |} in
  parse_from_file 4300 tsv_reader (String.concat "" (pre ++ hdr :: body))
  = Ok closed
  /\ parse_report 4300 tsv_reader pre = Ok closed
  /\ parse_lines 4300 tsv_reader initial_state (pre ++ hdr :: body) =
     Ok {| mod_ := Some {| cls := FastQCModule_class;
                           name := "Per tile sequence quality";
                           data := DNone; status := "warn" |};
           data_lines := [("#Tile" ++ TAB ++ "Base" ++ TAB ++ "Mean")%string];
           parsed := closed |}.
Proof.
  intros pre hdr body closed.
  apply (unterminated_module_is_dropped 4300 tsv_reader
           (String.concat "" (pre ++ hdr :: body)) pre body []
           hdr "Per tile sequence quality" "warn"
           {| mod_ := None; data_lines := []; parsed := closed |});
    try reflexivity.
  repeat constructor.
Defined.

(** C2, counterexample.  The value [10000.0] is not an integer literal but
    is a float literal equal to the integer 10000: the policy of the
    specification stores 10000, the interpreter keeps the text. *)
Lemma coercion_policy_counterexample :
  let body := ("##FastQC" ++ TAB ++ "0.11.9" ++ NL
               ++ "Total Sequences" ++ TAB ++ "10000.0")%string in
  int_of_str 4300 "10000.0" = None
  /\ spec_float_integer "10000.0" = Some 10000%Z
  /\ spec_coerced 4300 "10000.0" = VInt 10000
  /\ from_module 4300 tsv_reader BasicStatisticsModule_class
       {| cls := FastQCModule_class; name := "Basic Statistics";
          data := DStr body; status := "pass" |} =
     Ok {| cls := BasicStatisticsModule_class; name := "Basic Statistics";
           data := DDict [("Total Sequences", VStr "10000.0");
                          ("FastQC", VStr "0.11.9")];
           status := "pass" |}.
Proof. cbv zeta. repeat split; vm_compute; reflexivity. Qed.

Lemma coercion_policy_witness :
  coerced 4300 "10000" = VInt 10000
  /\ (int_of_str 4300 "-42" = Some (-42)%Z
      /\ int_eq_float (-42) (double_of_Z (-42)) = true)
  /\ coerced 4300 "0.11.9" = VStr "0.11.9".
Proof.
  destruct (coercion_policy 4300 tsv_reader FastQCModule_class
              "Basic Statistics" "" "pass") as (_ & Hint & Hback & Htext).
  split; [|split].
  - apply Hint; reflexivity.
  - apply (Hback "-42" (-42)%Z). vm_compute. reflexivity.
  - apply Htext. reflexivity.
Defined.

(** C3, counterexample.  Every line of these two bodies contains a tab, yet
    the interpreter fails on both: the first has no [##FastQC] line, the
    second has a line with two tabs. *)
Lemma key_value_failures_counterexample :
  let no_version := ("Filename" ++ TAB ++ "reads.fastq")%string in
  let two_tabs := ("##FastQC" ++ TAB ++ "0.11.9" ++ NL
                   ++ "Filename" ++ TAB ++ "reads" ++ TAB ++ "fastq")%string in
  let record body :=
    {| cls := FastQCModule_class; name := "Basic Statistics";
       data := DStr body; status := "pass" |} in
  forallb (fun l => (0 <? count tab l)%nat) (splitlines no_version) = true
  /\ from_module 4300 tsv_reader BasicStatisticsModule_class (record no_version)
     = Raise (KeyError "##FastQC")
  /\ forallb (fun l => (0 <? count tab l)%nat) (splitlines two_tabs) = true
  /\ from_module 4300 tsv_reader BasicStatisticsModule_class (record two_tabs)
     = Raise ValueError.
Proof. cbv zeta. repeat split; vm_compute; reflexivity. Qed.

Lemma inconsistent_markers_witness :
  parse_from_file 4300 tsv_reader
    (">>Basic Statistics" ++ TAB ++ "pass" ++ NL
     ++ ">>Per base sequence quality" ++ TAB ++ "pass" ++ NL)%string
  = Raise AssertionError
  /\ parse_from_file 4300 tsv_reader
       ("##FastQC" ++ TAB ++ "0.11.9" ++ NL ++ ">>END_MODULE" ++ NL)%string
     = Raise IndexError.
Proof.
  split.
  - apply (inconsistent_markers_raise 4300 tsv_reader _
             [(">>Basic Statistics" ++ TAB ++ "pass" ++ NL)%string] []
             (">>Per base sequence quality" ++ TAB ++ "pass" ++ NL)%string
             {| mod_ := Some {| cls := FastQCModule_class;
                                name := "Basic Statistics";
                                data := DNone; status := "pass" |};
                data_lines := []; parsed := new_results |});
      try reflexivity; discriminate.
  - apply (inconsistent_markers_raise 4300 tsv_reader _
             [("##FastQC" ++ TAB ++ "0.11.9" ++ NL)%string] []
             (">>END_MODULE" ++ NL)%string
             {| mod_ := None; data_lines := ["##FastQC" ++ TAB ++ "0.11.9"]%string;
                parsed := new_results |});
      reflexivity.
Defined.

Lemma unmapped_module_witness :
  from_module 4300 tsv_reader (module_class_of "Custom Module")
    {| cls := FastQCModule_class; name := "Custom Module";
       data := DStr ("a" ++ TAB ++ "b" ++ NL ++ "#c")%string; status := "warn" |} =
  Ok {| cls := FastQCModule_class; name := "Custom Module";
        data := DStr ("a" ++ TAB ++ "b" ++ NL ++ "#c")%string; status := "warn" |}.
Proof.
  apply (unmapped_module_passes_through 4300 tsv_reader "Custom Module");
    discriminate.
Defined.

Lemma lookup_of_absent_module_witness :
  let r := {| modules :=
                [("Basic Statistics",
                  {| cls := BasicStatisticsModule_class;
                     name := "Basic Statistics";
                     data := DDict [("FastQC", VStr "0.11.9")];
                     status := "pass" |})] |} in
  results_getitem r "Adapter Content" = (Raise (KeyError "Adapter Content"), r).
Proof.
  intros r. apply (lookup_of_absent_module r "Adapter Content").
  intros [H|[]]. discriminate H.
Defined.

Lemma outside_lines_witness :
  let stray := ("##FastQC" ++ TAB ++ "0.11.9" ++ NL)%string in
  let hdr := (">>Per base sequence quality" ++ TAB ++ "pass" ++ NL)%string in
  let inner := ("#Base" ++ TAB ++ "Mean" ++ NL)%string in
  let term := (">>END_MODULE" ++ NL)%string in
  parse_lines 4300 tsv_reader initial_state
    ([] ++ [stray] ++ hdr :: [inner] ++ [term])
  = Ok {| mod_ := None; data_lines := [];
          parsed :=
            {| modules :=
                 [("Per base sequence quality",
                   {| cls := FastQCModule_class;
                      name := "Per base sequence quality";
                      data := DStr ("##FastQC" ++ TAB ++ "0.11.9" ++ NL
                                    ++ "#Base" ++ TAB ++ "Mean")%string;
                      status := "pass" |})] |} |}.
Proof.
  intros stray hdr inner term.
  apply (outside_lines_join_next_module 4300 tsv_reader
           [] [stray] [inner] [] hdr "Per base sequence quality" "pass" term
           initial_state);
    try reflexivity; repeat constructor.
Defined.

(** * Further properties of the code *)

(** ** The parser *)

Lemma rstrip_idempotent (s : string) : rstrip (rstrip s) = rstrip s.
Proof.
  induction s as [|c s IH]; simpl; [reflexivity|].
  destruct (rstrip s) as [|c' r] eqn:E.
  - destruct (isspace c) eqn:Hc; simpl; [reflexivity|]. now rewrite Hc.
  - change (rstrip (String c (String c' r))) with
      (match rstrip (String c' r) with
       | EmptyString => if isspace c then EmptyString else String c EmptyString
       | r0 => String c r0
       end).
    now rewrite IH.
Qed.

Lemma count_after_prefix (p s r : string) (c : ascii) :
  after_prefix p s = Some r -> count c s = (count c p + count c r)%nat.
Proof.
  intros H. apply after_prefix_app in H. subst s.
  induction p as [|a p IH]; simpl; [reflexivity|]. rewrite IH. lia.
Qed.

Section ParserProperties.

Variable max_str_digits : nat.
Variable read_csv : string -> result DataFrame.

Local Abbreviation from_module := (from_module max_str_digits read_csv).
Local Abbreviation parse_line := (parse_line max_str_digits read_csv).
Local Abbreviation parse_lines := (parse_lines max_str_digits read_csv).
Local Abbreviation parse_report := (parse_report max_str_digits read_csv).
Local Abbreviation parse_from_file := (parse_from_file max_str_digits read_csv).

Lemma from_module_fields (c : module_class) (m m' : FastQCModule) :
  from_module c m = Ok m' ->
  name m' = name m /\ status m' = status m /\ cls m' = c.
Proof.
  destruct c; simpl.
  - intros [= <-]. repeat split.
  - unfold OverrepresentedSequencesModule_from_module.
    destruct (read_csv_or_empty read_csv (data m)); simpl; [|discriminate].
    intros [= <-]. repeat split.
  - unfold BasicStatisticsModule_from_module.
    destruct (data m); try discriminate.
    destruct (dict_of_items _ _); simpl; [|discriminate].
    destruct (PyDict.getitem _ _); simpl; [|discriminate].
    destruct (coerce_loop _ _ _); simpl; [|discriminate].
    intros [= <-]. repeat split.
Qed.

Lemma parse_line_well_keyed (st st' : parser_state) (l : string) :
  parse_line st l = Ok st' -> well_keyed (parsed st) -> well_keyed (parsed st').
Proof.
  unfold parse_line.
  destruct (startswith (rstrip l) ">>"); [|now intros [= <-]].
  destruct (mod_ st) as [m|].
  - destruct (String.eqb _ _); [|discriminate].
    destruct (from_module _ _) as [sm|e] eqn:E; simpl; [|discriminate].
    intros [= <-] [Hnd Hk].
    apply from_module_fields in E. destruct E as (En & _ & Ec).
    unfold set_data in En, Ec. cbn [name] in En, Ec.
    unfold well_keyed, results, results_setitem in *.
    cbn [parsed modules set_data name] in *.
    split.
    + now apply NoDup_keys_setitem.
    + intros k m0. destruct (string_dec (name m) k) as [<-|Hne].
      * rewrite get_setitem_eq. intros [= <-]. now split.
      * rewrite get_setitem_neq by assumption. apply Hk.
  - destruct (list_getitem _ 0); simpl; [|discriminate].
    destruct (list_getitem _ 1); simpl; [|discriminate].
    now intros [= <-].
Qed.

Lemma parse_lines_well_keyed (ls : list string) : forall st st',
  parse_lines st ls = Ok st' -> well_keyed (parsed st) -> well_keyed (parsed st').
Proof.
  induction ls as [|l ls IH]; intros st st'; simpl.
  - now intros [= <-].
  - destruct (parse_line st l) as [st1|e] eqn:E; simpl; [|discriminate].
    intros H Hw. eapply IH; [exact H|]. eapply parse_line_well_keyed; eassumption.
Qed.

Lemma parsed_results_well_keyed_aux (content : string) (r : FastQCResults) :
  parse_from_file content = Ok r -> well_keyed r.
Proof.
  unfold parse_from_file, parse_report.
  destruct (parse_lines initial_state _) as [st|e] eqn:E; simpl; [|discriminate].
  intros [= <-]. eapply parse_lines_well_keyed; [exact E|].
  split; [constructor | discriminate].
Qed.

(** X1.  Every Result Set the parser returns has distinct keys, and holds
    each module under the module's own name, built by the class the
    registry gives that name. *)
Theorem parsed_results_well_keyed (content : string) (r : FastQCResults) :
  parse_from_file content = Ok r -> well_keyed r.
Proof. apply parsed_results_well_keyed_aux. Qed.

Lemma setitem_absent {V : Type} (d : PyDict.dict V) (k : string) (v : V) :
  ~ In k (PyDict.keys d) -> PyDict.setitem d k v = d ++ [(k, v)].
Proof.
  induction d as [|[k0 v0] d IH]; simpl; [reflexivity|].
  intros H. destruct (String.eqb_spec k0 k) as [->|_]; [tauto|].
  f_equal. apply IH. tauto.
Qed.

Lemma status_fold (d : PyDict.dict FastQCModule) : forall acc,
  NoDup (PyDict.keys acc ++ PyDict.keys d) ->
  (forall k m, In (k, m) d -> name m = k) ->
  fold_left (fun acc m => PyDict.setitem acc (name m) (status m))
            (PyDict.values d) acc
  = acc ++ map (fun km => (fst km, status (snd km))) d.
Proof.
  induction d as [|[k m] d IH]; intros acc Hnd Hk; simpl.
  - now rewrite app_nil_r.
  - assert (Hn : name m = k) by (apply Hk; now left). rewrite Hn.
    simpl in Hnd. pose proof (NoDup_remove_2 _ _ _ Hnd) as Hnot.
    rewrite setitem_absent by (intros Hin; apply Hnot, in_or_app; now left).
    unfold PyDict.values in IH. rewrite IH.
    + now rewrite <- app_assoc.
    + unfold PyDict.keys. rewrite map_app. simpl. rewrite <- app_assoc. exact Hnd.
    + intros k' m' Hin. apply Hk. now right.
Qed.

Lemma get_In {V : Type} (d : PyDict.dict V) (k : string) (v : V) :
  NoDup (PyDict.keys d) -> In (k, v) d -> PyDict.get d k = Some v.
Proof.
  induction d as [|[k0 v0] d IH]; simpl; [tauto|].
  intros Hnd [[= -> ->]|Hin].
  - now rewrite String.eqb_refl.
  - inversion Hnd as [|? ? Hn Hd]; subst.
    destruct (String.eqb_spec k0 k) as [->|_]; [|now apply IH].
    exfalso. apply Hn. change k with (fst (k, v)). now apply in_map.
Qed.

(** X2.  On a Result Set returned by the parser, [status_dict] has the
    keys of the Result Set, in the same order, and gives each name the
    status of the module stored under it. *)
Theorem status_dict_of_parsed (content : string) (r : FastQCResults) :
  parse_from_file content = Ok r ->
  status_dict r = map (fun km => (fst km, status (snd km))) (results r)
  /\ PyDict.keys (status_dict r) = PyDict.keys (results r)
  /\ forall k, PyDict.get (status_dict r) k =
               option_map status (PyDict.get (results r) k).
Proof.
  intros H. apply parsed_results_well_keyed_aux in H. destruct H as [Hnd Hk].
  assert (E : status_dict r = map (fun km => (fst km, status (snd km))) (results r)).
  { unfold status_dict. rewrite status_fold; [reflexivity | exact Hnd |].
    intros k m Hin. apply (Hk k m). now apply get_In. }
  split; [exact E|]. rewrite E. split.
  - unfold PyDict.keys. rewrite map_map. reflexivity.
  - intros k. clear. generalize (results r). intros d.
    induction d as [|[k0 m0] d IH]; simpl; [reflexivity|].
    now destruct (String.eqb k0 k).
Qed.

End ParserProperties.

Lemma keys_setitem_add_key {V : Type} (d : PyDict.dict V) (k : string) (v : V) :
  PyDict.keys (PyDict.setitem d k v) = add_key (PyDict.keys d) k.
Proof.
  rewrite keys_setitem. unfold add_key.
  destruct (PyDict.get d k) eqn:E.
  - apply get_Some_keys in E. apply existsb_eqb_In in E. now rewrite E.
  - apply get_None_keys in E.
    destruct (existsb (String.eqb k) (PyDict.keys d)) eqn:Ex; [|reflexivity].
    apply existsb_eqb_In in Ex. contradiction.
Qed.

Lemma universal_newlines_crlf (s : string) :
  count cr s = 0%nat ->
  universal_newlines (to_crlf s) = s /\ universal_newlines s = s.
Proof.
  induction s as [|c s IH]; simpl; [now split|].
  destruct (Ascii.eqb_spec c cr) as [->|Hc]; [discriminate|].
  simpl. intros H. destruct (IH H) as [IH1 IH2]. split.
  - destruct (Ascii.eqb_spec c lf) as [->|Hl]; simpl.
    + now rewrite IH1.
    + destruct (Ascii.eqb_spec c cr); [contradiction|]. now rewrite IH1.
  - now rewrite IH2.
Qed.

Section ParserFlow.

Variable max_str_digits : nat.
Variable read_csv : string -> result DataFrame.

Local Abbreviation from_module := (from_module max_str_digits read_csv).
Local Abbreviation parse_line := (parse_line max_str_digits read_csv).
Local Abbreviation parse_lines := (parse_lines max_str_digits read_csv).
Local Abbreviation parse_report := (parse_report max_str_digits read_csv).
Local Abbreviation parse_from_file := (parse_from_file max_str_digits read_csv).
Local Abbreviation store_block := (store_block max_str_digits read_csv).

(** X3.  When a marker line is read inside a module and the loop goes on,
    the module has been interpreted and stored: looking its name up gives
    the interpreted module, the other names keep their modules, the name
    keeps its place among the keys if it was one already (the later module
    replaces the earlier) and goes last otherwise, and the parser is
    outside a module with no accumulated lines. *)
Theorem closed_module_is_stored
  (st st' : parser_state) (m : FastQCModule) (l : string) :
  mod_ st = Some m -> is_marker l = true -> parse_line st l = Ok st' ->
  exists sm,
    from_module (module_class_of (name m))
      (set_data m (DStr (join NL (data_lines st)))) = Ok sm
    /\ results_getitem (parsed st') (name m) = (Ok sm, parsed st')
    /\ (forall k, k <> name m ->
                  PyDict.get (results (parsed st')) k =
                  PyDict.get (results (parsed st)) k)
    /\ PyDict.keys (results (parsed st')) =
       add_key (PyDict.keys (results (parsed st))) (name m)
    /\ mod_ st' = None /\ data_lines st' = [].
Proof.
  intros Hm Hl. unfold parse_line. unfold is_marker in Hl. rewrite Hl, Hm.
  destruct (String.eqb _ _); [|discriminate].
  fold NL. destruct (from_module _ _) as [sm|e]; simpl; [|discriminate].
  intros [= <-]. exists sm. cbn [parsed mod_ data_lines].
  unfold results_getitem, results, results_setitem, PyDict.getitem, set_data.
  cbn [modules name].
  split; [reflexivity|]. split; [now rewrite get_setitem_eq|].
  split; [|split; [apply keys_setitem_add_key | split; reflexivity]].
  intros k Hk. apply get_setitem_neq. congruence.
Qed.

(** X4.  The parser sees a line only through its right-stripped form: two
    lists of lines that agree once right-stripped are parsed alike, so
    whitespace at the end of any line never changes the outcome. *)
Theorem trailing_whitespace_is_ignored (ls ls' : list string) :
  map rstrip ls = map rstrip ls' ->
  forall st, parse_lines st ls = parse_lines st ls'.
Proof.
  revert ls'. induction ls as [|l ls IH]; intros [|l' ls']; simpl;
    try discriminate; [reflexivity|].
  intros [= Hl Hls] st.
  assert (E : parse_line st l = parse_line st l').
  { unfold parse_line. now rewrite Hl. }
  rewrite E. destruct (parse_line st l'); simpl; [now apply IH | reflexivity].
Qed.

(** X5.  A marker line without a tab (after right-stripping) met outside a
    module has no status field: reading it raises [IndexError], and
    [parse_from_file] with it. *)
Theorem header_without_status_raises
  (content : string) (pre post : list string) (l : string) (st : parser_state) :
  iter_lines (universal_newlines content) = pre ++ l :: post ->
  parse_lines initial_state pre = Ok st ->
  mod_ st = None -> is_marker l = true -> count tab (rstrip l) = 0%nat ->
  parse_from_file content = Raise IndexError.
Proof.
  intros Hlines Hpre Hout Hm Hc.
  unfold parse_from_file, parse_report.
  rewrite Hlines, parse_lines_app, Hpre. simpl.
  assert (E : parse_line st l = Raise IndexError).
  { unfold parse_line. unfold is_marker in Hm. rewrite Hm, Hout.
    pose proof (length_split tab (removeprefix (rstrip l) ">>")) as Hlen.
    unfold startswith in Hm. unfold removeprefix in *.
    destruct (after_prefix ">>" (rstrip l)) as [r|] eqn:Ea; [|discriminate].
    rewrite (count_after_prefix _ _ _ tab Ea) in Hc. simpl in Hc.
    rewrite Hc in Hlen.
    destruct (split tab r) as [|f [|g fs]]; try discriminate. reflexivity. }
  now rewrite E.
Qed.

(** X6.  A text without any marker line is not refused: all its lines are
    accumulated and dropped, and the Result Set returned is empty. *)
Theorem report_without_markers_is_empty (content : string) :
  forallb (fun l => negb (is_marker l)) (iter_lines (universal_newlines content))
  = true ->
  parse_from_file content = Ok new_results.
Proof.
  intros H. unfold parse_from_file, parse_report.
  rewrite parse_lines_body; [reflexivity|].
  apply Forall_forall. intros l Hl.
  rewrite forallb_forall in H. specialize (H l Hl).
  now destruct (is_marker l).
Qed.

(** X7.  When the interpreter of a module raises at the module's
    terminator, [parse_from_file] raises the same exception: no Result Set
    is returned, whatever was parsed before and whatever follows. *)
Theorem interpreter_failure_aborts
  (content : string) (pre post : list string) (l : string)
  (st : parser_state) (m : FastQCModule) (e : exn) :
  iter_lines (universal_newlines content) = pre ++ l :: post ->
  parse_lines initial_state pre = Ok st ->
  mod_ st = Some m -> rstrip l = ">>END_MODULE" ->
  from_module (module_class_of (name m))
    (set_data m (DStr (join NL (data_lines st)))) = Raise e ->
  parse_from_file content = Raise e.
Proof.
  intros Hlines Hpre Hm Hl He.
  unfold parse_from_file, parse_report.
  rewrite Hlines, parse_lines_app, Hpre. simpl.
  rewrite (parse_line_close _ _ st m l Hm Hl), He. reflexivity.
Qed.

Lemma parse_block (b : block) (r : FastQCResults) :
  block_ok b ->
  parse_lines {| mod_ := None; data_lines := []; parsed := r |} (block_lines b)
  = (r' <- store_block r b ;;
     Ok {| mod_ := None; data_lines := []; parsed := r' |}).
Proof.
  intros (Ho & Hm & Hlen & Hi & Ht). unfold block_lines, store_block, block_record.
  destruct (marker_fields (b_header b)) as [|n [|s more]] eqn:Hf;
    simpl in Hlen; try lia.
  rewrite parse_lines_app, parse_lines_body by assumption. simpl.
  erewrite parse_line_open; [|reflexivity | exact Hm | exact Hf]. simpl.
  rewrite parse_lines_app, parse_lines_body by assumption. simpl.
  erewrite parse_line_close; [|reflexivity | exact Ht].
  unfold set_data. simpl.
  now destruct (from_module _ _).
Qed.

Lemma fold_store_raise (bs : list block) (e : exn) :
  fold_left (fun acc b => r <- acc ;; store_block r b) bs (Raise e) = Raise e.
Proof. induction bs as [|b bs IH]; simpl; [reflexivity | exact IH]. Qed.

Lemma parse_blocks (bs : list block) : forall r,
  Forall block_ok bs ->
  parse_lines {| mod_ := None; data_lines := []; parsed := r |}
              (flat_map block_lines bs)
  = (r' <- fold_left (fun acc b => r <- acc ;; store_block r b) bs (Ok r) ;;
     Ok {| mod_ := None; data_lines := []; parsed := r' |}).
Proof.
  induction bs as [|b bs IH]; intros r H; simpl; [reflexivity|].
  inversion H as [|? ? Hb Hbs]; subst.
  rewrite parse_lines_app, parse_block by assumption.
  destruct (store_block r b) as [r1|e]; simpl.
  - now apply IH.
  - now rewrite fold_store_raise.
Qed.

(** X8.  A report made of well-formed modules (lines before the header, a
    header with a name and a status, body lines, the terminator) is parsed
    as the left fold of the interpreters over its modules: each module is
    interpreted from its record, whose body joins the lines before its
    header and its own lines, and stored under its name; the first
    interpreter that raises decides the outcome. *)
Theorem report_is_fold_of_modules (bs : list block) :
  Forall block_ok bs ->
  parse_report (flat_map block_lines bs)
  = fold_left (fun acc b => r <- acc ;; store_block r b) bs (Ok new_results).
Proof.
  intros H. unfold parse_report, initial_state.
  rewrite parse_blocks by assumption.
  now destruct (fold_left _ bs (Ok new_results)).
Qed.

(** X9.  Windows line ends do not matter: a text without CR parses alike
    with its line ends written LF or CR LF. *)
Theorem crlf_report_parses_alike (content : string) :
  count cr content = 0%nat ->
  parse_from_file (to_crlf content) = parse_from_file content.
Proof.
  intros H. unfold parse_from_file.
  destruct (universal_newlines_crlf content H) as [-> ->]. reflexivity.
Qed.

End ParserFlow.

(** ** The interpreters *)

Section InterpreterProperties.

Variable max_str_digits : nat.
Variable read_csv : string -> result DataFrame.

Local Abbreviation from_module := (from_module max_str_digits read_csv).

Lemma dict_of_items_keys (items : list (list string)) : forall d d',
  dict_of_items d items = Ok d' ->
  PyDict.keys d' = fold_left add_key (map (hd "") items) (PyDict.keys d).
Proof.
  induction items as [|it items IH]; intros d d'; simpl.
  - now intros [= ->].
  - destruct it as [|k0 [|v0 [|w it]]]; try discriminate.
    intros H. rewrite (IH _ _ H), keys_setitem_add_key. reflexivity.
Qed.

(** X10.  In the dictionary the Key-Value interpreter returns, the keys
    come in the order in which the body first mentions them, with [FastQC]
    last unless the body has a line with that key, and without the keys
    that start with [#].  [FastQC] is always among them and holds the
    coerced value of the last [##FastQC] line, also when the body has a
    [FastQC] line of its own. *)
Theorem key_value_fields_order
  (c : module_class) (n body st : string) (m' : FastQCModule) :
  let lines := splitlines body in
  from_module BasicStatisticsModule_class
    {| cls := c; name := n; data := DStr body; status := st |} = Ok m' ->
  exists d v,
    data m' = DDict d
    /\ PyDict.keys d =
       filter (fun k => negb (startswith k "#"))
              (add_key (fold_left add_key
                          (map (fun l => hd "" (split tab l)) lines) [])
                       "FastQC")
    /\ last_value (map (split tab) lines) "##FastQC" = Some v
    /\ PyDict.get d "FastQC" = Some (coerced max_str_digits v).
Proof.
  intros lines.
  change (from_module BasicStatisticsModule_class
            {| cls := c; name := n; data := DStr body; status := st |})
    with (BasicStatisticsModule_from_module max_str_digits
            {| cls := c; name := n; data := DStr body; status := st |}).
  unfold BasicStatisticsModule_from_module. cbn [data name status].
  fold lines. set (items := map (split tab) lines).
  destruct (dict_of_items [] items) as [d1|e] eqn:Hitems; simpl; [|discriminate].
  pose proof (dict_of_items_get items _ _ Hitems) as Hget1.
  pose proof (dict_of_items_keys items _ _ Hitems) as Hkeys1.
  assert (Hnd1 : NoDup (PyDict.keys d1)).
  { eapply dict_of_items_NoDup; [exact Hitems | constructor]. }
  unfold PyDict.getitem. rewrite (Hget1 "##FastQC").
  destruct (last_value items "##FastQC") as [v|] eqn:Hv; simpl; [|discriminate].
  set (d0 := PyDict.setitem d1 "FastQC" (VStr v)).
  assert (Hget0 : forall k, PyDict.get d0 k = option_map VStr (field_text items k)).
  { intros k. unfold field_text. subst d0.
    destruct (String.eqb_spec k "FastQC") as [->|Hne].
    - rewrite get_setitem_eq, Hv. reflexivity.
    - rewrite get_setitem_neq by congruence. rewrite Hget1.
      now destruct (last_value items k). }
  destruct (coerce_loop_visited max_str_digits (PyDict.keys d0) d0)
    as (d & Hrun & Hget & Hkeys).
  { now apply NoDup_keys_setitem. }
  { now apply NoDup_keys_setitem. }
  { intros k Hk. rewrite Hget0.
    destruct (field_text items k) as [s|] eqn:E; [now exists s|].
    exfalso. revert Hk. apply get_None_keys. rewrite Hget0, E. reflexivity. }
  rewrite Hrun. simpl. intros [= <-]. exists d, v. cbn [data].
  split; [reflexivity|]. split; [|split; [reflexivity|]].
  - rewrite Hkeys. subst d0. rewrite keys_setitem_add_key, Hkeys1.
    unfold items. rewrite map_map. simpl.
    apply filter_ext_in. intros k Hk.
    apply existsb_eqb_In in Hk. now rewrite Hk.
  - rewrite Hget. unfold visited.
    assert (Hin : existsb (String.eqb "FastQC") (PyDict.keys d0) = true).
    { apply existsb_eqb_In. eapply get_Some_keys. subst d0. apply get_setitem_eq. }
    rewrite Hin. subst d0. rewrite get_setitem_eq. reflexivity.
Qed.

(** X11.  The specialised interpreters do not accept their own results.
    A module built by the Key-Value interpreter holds a dictionary, on
    which the interpreter raises [AttributeError]; a module built by the
    Tabular interpreter with a table holds a dataframe, whose truth value
    raises [ValueError]; only a Tabular module without a table is
    interpreted again, to itself, without reading anything. *)
Theorem interpreters_reject_their_results (m m' : FastQCModule) :
  (from_module BasicStatisticsModule_class m = Ok m' ->
   from_module BasicStatisticsModule_class m' = Raise AttributeError)
  /\ (from_module OverrepresentedSequencesModule_class m = Ok m' ->
      (data m' <> DNone ->
       from_module OverrepresentedSequencesModule_class m' = Raise ValueError)
      /\ (data m' = DNone ->
          from_module OverrepresentedSequencesModule_class m' = Ok m')).
Proof.
  split.
  - unfold from_module, BasicStatisticsModule_from_module.
    destruct (data m); try discriminate.
    destruct (dict_of_items _ _); simpl; [|discriminate].
    destruct (PyDict.getitem _ _); simpl; [|discriminate].
    destruct (coerce_loop _ _ _); simpl; [|discriminate].
    now intros [= <-].
  - unfold from_module, OverrepresentedSequencesModule_from_module.
    destruct (read_csv_or_empty read_csv (data m)) as [t|e]; simpl; [|discriminate].
    intros [= <-]. cbn [data name status cls].
    destruct t as [df|]; split; try reflexivity; try contradiction; discriminate.
Qed.

End InterpreterProperties.

(** ** The analysis *)

Lemma split_without_separator (c : ascii) (a : string) :
  count c a = 0%nat -> split c a = [a].
Proof.
  induction a as [|x a IH]; simpl; [reflexivity|].
  destruct (Ascii.eqb x c); [discriminate|].
  simpl. intros H. now rewrite IH.
Qed.

Lemma split_at_first_separator (c : ascii) (a b : string) :
  count c a = 0%nat -> split c (a ++ String c b) = a :: split c b.
Proof.
  induction a as [|x a IH]; simpl.
  - now rewrite Ascii.eqb_refl.
  - destruct (Ascii.eqb x c); [discriminate|].
    simpl. intros H. now rewrite IH.
Qed.

Section AnalysisProperties.

Variable max_str_digits : nat.
Variable read_csv : string -> result DataFrame.
Variable Path : Type.
Variable Path_of_str : string -> Path.
Variable str_of_Path : Path -> string.
Variable Path_name : Path -> string.
Variable Path_div : Path -> string -> Path.
Variable Path_eqb : Path -> Path -> bool.
Variable World : Type.
Variable popen : list string -> World -> World * option Z.
Variable read_file : Path -> World -> option string.

Local Abbreviation to_Path := (Analysis.to_Path Path Path_of_str).
Local Abbreviation init := (Analysis.init Path Path_of_str).
Local Abbreviation command := (Analysis._build_fastqc_command Path str_of_Path).
Local Abbreviation report_path := (Analysis.report_path Path Path_name Path_div).
Local Abbreviation path_dict_get := (Analysis.path_dict_get Path Path_eqb).
Local Abbreviation path_dict_set := (Analysis.path_dict_set Path Path_eqb).
Local Abbreviation read_reports :=
  (Analysis.read_reports max_str_digits read_csv Path Path_name Path_div
     Path_eqb World read_file).
Local Abbreviation get_results :=
  (Analysis._get_results max_str_digits read_csv Path str_of_Path Path_name
     Path_div Path_eqb World popen read_file).
Local Abbreviation analysis_results :=
  (Analysis.results max_str_digits read_csv Path str_of_Path Path_name
     Path_div Path_eqb World popen read_file).
Local Abbreviation parse_from_file := (parse_from_file max_str_digits read_csv).

(** X12.  The constructor raises [TypeError] exactly when [out_dir] is left
    out ([None]).  So every analysis it returns has an output directory and
    no results yet, and the command built for it always carries [-o]: it
    is [fastqc --extract -T threads -o out_dir] followed by the read paths
    in the order given. *)
Theorem analysis_needs_out_dir
  (rps : list (Analysis.pathlike Path)) (od : option (Analysis.pathlike Path))
  (t : Z) :
  match init rps od t with
  | inl e => od = None /\ e = Analysis.PathTypeError
  | inr a =>
      exists o,
        od = Some o
        /\ Analysis._out_dir a = Some (to_Path o)
        /\ Analysis._read_paths a = map to_Path rps
        /\ Analysis._results a = None
        /\ command a =
           ["fastqc"; "--extract"; "-T"; Analysis.str_of_int t;
            "-o"; str_of_Path (to_Path o)]
           ++ map (fun x => str_of_Path (to_Path x)) rps
  end.
Proof.
  unfold Analysis.init. destruct od as [o|]; [|now split].
  exists o. repeat split.
  unfold Analysis._build_fastqc_command. simpl. now rewrite map_map.
Qed.

(** X13.  The results are computed once.  When the [results] property
    returns, it returns a dictionary, which the object keeps; the settings
    of the object are unchanged; and every later access returns the same
    dictionary without running a process or touching the machine. *)
Theorem results_are_computed_once
  (a a1 : Analysis.FastQCAnalysis Path) (w w1 : World)
  (r : option (Analysis.path_dict Path)) :
  analysis_results a w = (w1, inr (a1, r)) ->
  (exists d, r = Some d /\ Analysis._results a1 = Some d)
  /\ Analysis._read_paths a1 = Analysis._read_paths a
  /\ Analysis._out_dir a1 = Analysis._out_dir a
  /\ Analysis._threads a1 = Analysis._threads a
  /\ forall w2, analysis_results a1 w2 = (w2, inr (a1, r)).
Proof.
  unfold Analysis.results.
  destruct (Analysis._results a) as [d|] eqn:Er.
  - intros [= <- <- <-]. rewrite Er. repeat split. now exists d.
  - unfold Analysis._get_results.
    destruct (popen (command a) w) as [w' [code|]]; [|discriminate].
    destruct (Z.eqb code 0); [|discriminate].
    destruct (read_reports _ _ w' []) as [e|d]; [discriminate|].
    intros [= <- <- <-]. simpl. repeat split. now exists d.
Qed.

(** X14.  When no results are kept yet and [fastqc] ends with a return code
    other than zero, the [results] property raises [CalledProcessError]
    with that code and the command that was run; when the process cannot
    be started, it raises what [Popen] raised.  In both cases no report is
    read. *)
Theorem failed_run_raises (a : Analysis.FastQCAnalysis Path) (w w1 : World) :
  Analysis._results a = None ->
  (forall code, popen (command a) w = (w1, Some code) -> code <> 0%Z ->
                analysis_results a w =
                (w1, inl (Analysis.CalledProcessError code (command a))))
  /\ (popen (command a) w = (w1, None) ->
      analysis_results a w = (w1, inl Analysis.ProcessStartError)).
Proof.
  intros Hr. unfold Analysis.results, Analysis._get_results. rewrite Hr. split.
  - intros code -> Hc. destruct (Z.eqb_spec code 0); [contradiction | reflexivity].
  - now intros ->.
Qed.

Hypothesis Path_eqb_eq : forall p q, Path_eqb p q = true <-> p = q.

Lemma path_dict_get_set (d : Analysis.path_dict Path) (k k' : Path)
  (v : FastQCResults) :
  path_dict_get (path_dict_set d k v) k' =
  if Path_eqb k k' then Some v else path_dict_get d k'.
Proof.
  induction d as [|[k0 v0] d IH]; simpl; [reflexivity|].
  destruct (Path_eqb k0 k) eqn:E0; simpl.
  - apply Path_eqb_eq in E0. subst k0. now destruct (Path_eqb k k').
  - rewrite IH. destruct (Path_eqb k0 k') eqn:E1; [|reflexivity].
    apply Path_eqb_eq in E1. subst k0.
    destruct (Path_eqb k k') eqn:E2; [|reflexivity].
    apply Path_eqb_eq in E2. subst k'.
    assert (Path_eqb k k = true) by now apply Path_eqb_eq. congruence.
Qed.

Lemma read_reports_entries (o : Path) (w : World) (ps : list Path) :
  forall acc d,
    read_reports (Some o) ps w acc = inr d ->
    (forall p, In p ps ->
               exists content r,
                 read_file (report_path o p) w = Some content
                 /\ parse_from_file content = Ok r
                 /\ path_dict_get d p = Some r)
    /\ (forall p, ~ In p ps -> path_dict_get d p = path_dict_get acc p).
Proof.
  induction ps as [|p0 ps IH]; intros acc d; simpl.
  - intros [= <-]. split; [intros p [] | reflexivity].
  - destruct (read_file (report_path o p0) w) as [content|] eqn:Ef; [|discriminate].
    destruct (parse_from_file content) as [r0|e] eqn:Ep; [|discriminate].
    intros H. destruct (IH _ _ H) as [Hin Hout]. split.
    + intros p Hp.
      assert (Hdec : In p ps \/ ~ In p ps).
      { clear -Path_eqb_eq. induction ps as [|q ps IHps]; [right; intros []|].
        destruct (Path_eqb q p) eqn:E.
        - apply Path_eqb_eq in E. left. now left.
        - destruct IHps as [Hi|Hn]; [left; now right|].
          right. intros [->|Hi]; [|contradiction].
          assert (Path_eqb p p = true) by now apply Path_eqb_eq. congruence. }
      destruct Hdec as [Hi|Hn]; [now apply Hin|].
      destruct Hp as [->|Hp]; [|contradiction].
      exists content, r0. split; [assumption|]. split; [assumption|].
      rewrite (Hout p Hn), path_dict_get_set.
      assert (Path_eqb p p = true) as -> by now apply Path_eqb_eq. reflexivity.
    + intros p Hn. rewrite Hout by (intros Hi; apply Hn; now right).
      rewrite path_dict_get_set.
      destruct (Path_eqb p0 p) eqn:E; [|reflexivity].
      apply Path_eqb_eq in E. subst p0. exfalso. apply Hn. now left.
Qed.

(** X15.  When the [results] property computes the results, [fastqc] has
    ended with return code zero, and the dictionary returned gives, for
    every read path of the analysis, the Result Set parsed from the file
    [out_dir/<stem>_fastqc/fastqc_data.txt] as it is after the run; it has
    no entry for any other path. *)
Theorem results_cover_read_paths
  (a a1 : Analysis.FastQCAnalysis Path) (w w1 : World)
  (d : Analysis.path_dict Path) :
  Analysis._results a = None ->
  analysis_results a w = (w1, inr (a1, Some d)) ->
  popen (command a) w = (w1, Some 0%Z)
  /\ (forall p, In p (Analysis._read_paths a) ->
                exists o content r,
                  Analysis._out_dir a = Some o
                  /\ read_file (report_path o p) w1 = Some content
                  /\ parse_from_file content = Ok r
                  /\ path_dict_get d p = Some r)
  /\ (forall p, ~ In p (Analysis._read_paths a) -> path_dict_get d p = None).
Proof.
  intros Hr. unfold Analysis.results, Analysis._get_results. rewrite Hr.
  destruct (popen (command a) w) as [w' [code|]]; [|discriminate].
  destruct (Z.eqb_spec code 0) as [->|]; [|discriminate].
  destruct (read_reports _ _ w' []) as [e|d'] eqn:Erd; [discriminate|].
  intros [= <- <- <-]. split; [reflexivity|].
  destruct (Analysis._out_dir a) as [o|] eqn:Eo.
  - destruct (read_reports_entries o w' _ _ _ Erd) as [Hin Hout]. split.
    + intros p Hp. destruct (Hin p Hp) as (content & r & H1 & H2 & H3).
      now exists o, content, r.
    + intros p Hn. now rewrite Hout.
  - destruct (Analysis._read_paths a) as [|p0 ps]; simpl in Erd; [|discriminate].
    injection Erd as <-. split; [intros p []|reflexivity].
Qed.

(** X16.  The report read for a read file is found from the text of the
    file's name before its first dot: for a name [stem.rest] with no dot in
    [stem] it is [out_dir/stem_fastqc/fastqc_data.txt], whatever [rest] is,
    and for a name without a dot the whole name is the stem.  Read files
    whose names agree up to the first dot are given the same report. *)
Theorem report_path_uses_first_stem (o p : Path) (stem rest : string) :
  count "."%char stem = 0%nat ->
  (Path_name p = (stem ++ String "."%char rest)%string \/ Path_name p = stem) ->
  report_path o p =
  Path_div (Path_div o (stem ++ "_fastqc")%string) "fastqc_data.txt".
Proof.
  intros Hs [Hn|Hn]; unfold Analysis.report_path; rewrite Hn.
  - now rewrite split_at_first_separator.
  - now rewrite split_without_separator.
Qed.

End AnalysisProperties.

(** ** The further properties on concrete inputs *)

Lemma parsed_results_well_keyed_witness :
  well_keyed
    {| modules :=
         [("Per base sequence quality",
           {| cls := FastQCModule_class; name := "Per base sequence quality";
              data := DStr ("#Base" ++ TAB ++ "Mean")%string;
              status := "pass" |})] |}.
Proof.
  apply (parsed_results_well_keyed 4300 tsv_reader SampleMachine.report).
  vm_compute. reflexivity.
Defined.

Lemma status_dict_of_parsed_witness :
  let r :=
    {| modules :=
         [("Per base sequence quality",
           {| cls := FastQCModule_class; name := "Per base sequence quality";
              data := DStr ("#Base" ++ TAB ++ "Mean")%string;
              status := "pass" |})] |} in
  status_dict r = map (fun km => (fst km, status (snd km))) (results r).
Proof.
  intros r.
  apply (status_dict_of_parsed 4300 tsv_reader SampleMachine.report r).
  vm_compute. reflexivity.
Defined.

Lemma closed_module_is_stored_witness :
  let m := {| cls := FastQCModule_class; name := "Adapter Content";
              data := DNone; status := "warn" |} in
  let st := {| mod_ := Some m; data_lines := ["#Position"];
               parsed := new_results |} in
  let st' :=
    {| mod_ := None; data_lines := [];
       parsed :=
         {| modules := [("Adapter Content", set_data m (DStr "#Position"))] |} |} in
  exists sm,
    from_module 4300 tsv_reader (module_class_of (name m))
      (set_data m (DStr (join NL (data_lines st)))) = Ok sm
    /\ results_getitem (parsed st') (name m) = (Ok sm, parsed st')
    /\ (forall k, k <> name m ->
                  PyDict.get (results (parsed st')) k =
                  PyDict.get (results (parsed st)) k)
    /\ PyDict.keys (results (parsed st')) =
       add_key (PyDict.keys (results (parsed st))) (name m)
    /\ mod_ st' = None /\ data_lines st' = [].
Proof.
  intros m st st'.
  apply (closed_module_is_stored 4300 tsv_reader st st' m ">>END_MODULE");
    reflexivity.
Defined.

Lemma trailing_whitespace_witness :
  parse_lines 4300 tsv_reader initial_state
    [(">>Adapter Content" ++ TAB ++ "warn  " ++ NL)%string]
  = parse_lines 4300 tsv_reader initial_state
      [(">>Adapter Content" ++ TAB ++ "warn")%string].
Proof.
  apply (trailing_whitespace_is_ignored 4300 tsv_reader). reflexivity.
Defined.

Lemma header_without_status_witness :
  parse_from_file 4300 tsv_reader (">>Basic Statistics" ++ TAB ++ NL)%string
  = Raise IndexError.
Proof.
  apply (header_without_status_raises 4300 tsv_reader _ [] []
           (">>Basic Statistics" ++ TAB ++ NL)%string initial_state);
    reflexivity.
Defined.

Lemma report_without_markers_witness :
  parse_from_file 4300 tsv_reader
    ("##FastQC" ++ TAB ++ "0.11.9" ++ NL ++ "> not a marker" ++ NL)%string
  = Ok new_results.
Proof.
  apply (report_without_markers_is_empty 4300 tsv_reader). reflexivity.
Defined.

Lemma interpreter_failure_witness :
  parse_from_file 4300 tsv_reader
    (">>Basic Statistics" ++ TAB ++ "pass" ++ NL
     ++ "Filename" ++ TAB ++ "reads.fastq" ++ NL
     ++ ">>END_MODULE" ++ NL
     ++ ">>Adapter Content" ++ TAB ++ "pass" ++ NL
     ++ ">>END_MODULE" ++ NL)%string
  = Raise (KeyError "##FastQC").
Proof.
  apply (interpreter_failure_aborts 4300 tsv_reader _
           [(">>Basic Statistics" ++ TAB ++ "pass" ++ NL)%string;
            ("Filename" ++ TAB ++ "reads.fastq" ++ NL)%string]
           [(">>Adapter Content" ++ TAB ++ "pass" ++ NL)%string;
            (">>END_MODULE" ++ NL)%string]
           (">>END_MODULE" ++ NL)%string
           {| mod_ := Some {| cls := FastQCModule_class;
                              name := "Basic Statistics";
                              data := DNone; status := "pass" |};
              data_lines := [("Filename" ++ TAB ++ "reads.fastq")%string];
              parsed := new_results |}
           {| cls := FastQCModule_class; name := "Basic Statistics";
              data := DNone; status := "pass" |});
    reflexivity.
Defined.

Lemma report_is_fold_witness :
  let b1 := {| b_outside := [("##FastQC" ++ TAB ++ "0.11.9")%string];
               b_header := (">>Adapter Content" ++ TAB ++ "pass")%string;
               b_inside := ["#Position"];
               b_terminator := ">>END_MODULE" |} in
  let b2 := {| b_outside := [];
               b_header := (">>Kmer Content" ++ TAB ++ "fail")%string;
               b_inside := [];
               b_terminator := ">>END_MODULE" |} in
  parse_report 4300 tsv_reader (flat_map block_lines [b1; b2])
  = fold_left (fun acc b => r <- acc ;; store_block 4300 tsv_reader r b)
              [b1; b2] (Ok new_results).
Proof.
  intros b1 b2.
  apply (report_is_fold_of_modules 4300 tsv_reader [b1; b2]).
  repeat constructor.
Defined.

Lemma crlf_report_witness :
  parse_from_file 4300 tsv_reader (to_crlf SampleMachine.report)
  = parse_from_file 4300 tsv_reader SampleMachine.report.
Proof.
  apply (crlf_report_parses_alike 4300 tsv_reader). reflexivity.
Defined.

Lemma key_value_fields_order_witness :
  let body := ("FastQC" ++ TAB ++ "mine" ++ NL
               ++ "##FastQC" ++ TAB ++ "0.11.9" ++ NL
               ++ "#Encoding" ++ TAB ++ "Sanger" ++ NL
               ++ "%GC" ++ TAB ++ "47")%string in
  let m' := {| cls := BasicStatisticsModule_class; name := "Basic Statistics";
               data := DDict [("FastQC", VStr "0.11.9"); ("%GC", VInt 47)];
               status := "pass" |} in
  exists d v,
    data m' = DDict d
    /\ PyDict.keys d =
       filter (fun k => negb (startswith k "#"))
              (add_key (fold_left add_key
                          (map (fun l => hd "" (split tab l)) (splitlines body))
                          [])
                       "FastQC")
    /\ last_value (map (split tab) (splitlines body)) "##FastQC" = Some v
    /\ PyDict.get d "FastQC" = Some (coerced 4300 v).
Proof.
  intros body m'.
  apply (key_value_fields_order 4300 tsv_reader FastQCModule_class
           "Basic Statistics" body "pass" m').
  vm_compute. reflexivity.
Defined.

Lemma interpreters_reject_witness :
  from_module 4300 tsv_reader BasicStatisticsModule_class
    {| cls := BasicStatisticsModule_class; name := "Basic Statistics";
       data := DDict [("FastQC", VStr "0.11.9")]; status := "pass" |}
  = Raise AttributeError.
Proof.
  apply (interpreters_reject_their_results 4300 tsv_reader
           {| cls := FastQCModule_class; name := "Basic Statistics";
              data := DStr ("##FastQC" ++ TAB ++ "0.11.9")%string;
              status := "pass" |}).
  vm_compute. reflexivity.
Defined.

Lemma results_are_computed_once_witness :
  let a := {| Analysis._read_paths := ["reads.fastq"];
              Analysis._out_dir := Some "out";
              Analysis._threads := 2%Z; Analysis._results := None |} in
  let d := [("reads.fastq",
             {| modules :=
                  [("Per base sequence quality",
                    {| cls := FastQCModule_class;
                       name := "Per base sequence quality";
                       data := DStr ("#Base" ++ TAB ++ "Mean")%string;
                       status := "pass" |})] |})] in
  let a1 := {| Analysis._read_paths := ["reads.fastq"];
               Analysis._out_dir := Some "out";
               Analysis._threads := 2%Z; Analysis._results := Some d |} in
  let w2 := [["fastqc"; "--extract"; "-T"; "2"; "-o"; "out"; "reads.fastq"]] in
  Analysis.results 4300 tsv_reader SampleMachine.Path
    SampleMachine.str_of_Path SampleMachine.Path_name SampleMachine.Path_div
    SampleMachine.Path_eqb SampleMachine.World SampleMachine.popen
    SampleMachine.read_file a1 w2
  = (w2, inr (a1, Some d)).
Proof.
  intros a d a1 w2.
  apply (results_are_computed_once 4300 tsv_reader SampleMachine.Path
           SampleMachine.str_of_Path SampleMachine.Path_name
           SampleMachine.Path_div SampleMachine.Path_eqb SampleMachine.World
           SampleMachine.popen SampleMachine.read_file
           a a1 []
           [["fastqc"; "--extract"; "-T"; "2"; "-o"; "out"; "reads.fastq"]]
           (Some d)).
  vm_compute. reflexivity.
Defined.

Lemma failed_run_witness :
  let a := {| Analysis._read_paths := ["missing.fastq"];
              Analysis._out_dir := Some "out";
              Analysis._threads := 1%Z; Analysis._results := None |} in
  let cmd := ["fastqc"; "--extract"; "-T"; "1"; "-o"; "out"; "missing.fastq"] in
  Analysis.results 4300 tsv_reader SampleMachine.Path
    SampleMachine.str_of_Path SampleMachine.Path_name SampleMachine.Path_div
    SampleMachine.Path_eqb SampleMachine.World SampleMachine.popen
    SampleMachine.read_file a []
  = ([cmd], inl (Analysis.CalledProcessError 1%Z cmd)).
Proof.
  intros a cmd.
  apply (failed_run_raises 4300 tsv_reader SampleMachine.Path
           SampleMachine.str_of_Path SampleMachine.Path_name
           SampleMachine.Path_div SampleMachine.Path_eqb SampleMachine.World
           SampleMachine.popen SampleMachine.read_file a [] [cmd]);
    [reflexivity | reflexivity | discriminate].
Defined.

Lemma results_cover_read_paths_witness :
  let a := {| Analysis._read_paths := ["reads.fastq"];
              Analysis._out_dir := Some "out";
              Analysis._threads := 2%Z; Analysis._results := None |} in
  SampleMachine.popen
    (Analysis._build_fastqc_command SampleMachine.Path
       SampleMachine.str_of_Path a) []
  = ([["fastqc"; "--extract"; "-T"; "2"; "-o"; "out"; "reads.fastq"]],
     Some 0%Z).
Proof.
  intros a.
  apply (results_cover_read_paths 4300 tsv_reader SampleMachine.Path
           SampleMachine.str_of_Path SampleMachine.Path_name
           SampleMachine.Path_div SampleMachine.Path_eqb SampleMachine.World
           SampleMachine.popen SampleMachine.read_file String.eqb_eq
           a
           {| Analysis._read_paths := ["reads.fastq"];
              Analysis._out_dir := Some "out";
              Analysis._threads := 2%Z;
              Analysis._results :=
                Some [("reads.fastq",
                       {| modules :=
                            [("Per base sequence quality",
                              {| cls := FastQCModule_class;
                                 name := "Per base sequence quality";
                                 data := DStr ("#Base" ++ TAB ++ "Mean")%string;
                                 status := "pass" |})] |})] |}
           []
           [["fastqc"; "--extract"; "-T"; "2"; "-o"; "out"; "reads.fastq"]]
           [("reads.fastq",
             {| modules :=
                  [("Per base sequence quality",
                    {| cls := FastQCModule_class;
                       name := "Per base sequence quality";
                       data := DStr ("#Base" ++ TAB ++ "Mean")%string;
                       status := "pass" |})] |})]);
    vm_compute; reflexivity.
Defined.

Lemma report_path_witness :
  Analysis.report_path SampleMachine.Path SampleMachine.Path_name
    SampleMachine.Path_div "out" "reads.R1.fastq.gz"
  = "out/reads_fastqc/fastqc_data.txt".
Proof.
  apply (report_path_uses_first_stem SampleMachine.Path SampleMachine.Path_name
           SampleMachine.Path_div "out" "reads.R1.fastq.gz" "reads"
           "R1.fastq.gz");
    [reflexivity | left; reflexivity].
Defined.

Section HeaderFields.

Variable max_str_digits : nat.
Variable read_csv : string -> result DataFrame.

Local Abbreviation parse_line := (parse_line max_str_digits read_csv).

(** X17.  A line that right-strips to [>>name<TAB>rest], with no tab in
    [name], opens the module [name] when read outside a module; its status
    is the text of [rest] up to the first tab, and whatever follows a
    second tab is ignored.  The lines accumulated so far and the Result
    Set are left as they are. *)
Theorem header_opens_module (st : parser_state) (l n rest : string) :
  mod_ st = None ->
  rstrip l = (">>" ++ n ++ String tab rest)%string ->
  count tab n = 0%nat ->
  exists s more,
    split tab rest = s :: more
    /\ parse_line st l =
       Ok {| mod_ := Some {| cls := FastQCModule_class; name := n;
                             data := DNone; status := s |};
             data_lines := data_lines st; parsed := parsed st |}.
Proof.
  intros Hout Hl Hn.
  destruct (split tab rest) as [|s more] eqn:Es;
    [now apply split_nonempty in Es|].
  exists s, more. split; [reflexivity|].
  apply (parse_line_open _ _ st l n s more Hout).
  - unfold is_marker. rewrite Hl. reflexivity.
  - unfold marker_fields. rewrite Hl.
    change (removeprefix (">>" ++ n ++ String tab rest) ">>")
      with (n ++ String tab rest)%string.
    now rewrite split_at_first_separator, Es.
Qed.

End HeaderFields.

Lemma header_opens_module_witness :
  exists s more,
    split tab ("warn" ++ TAB ++ "ignored")%string = s :: more
    /\ parse_line 4300 tsv_reader initial_state
         (">>Adapter Content" ++ TAB ++ "warn" ++ TAB ++ "ignored" ++ NL)%string
       = Ok {| mod_ := Some {| cls := FastQCModule_class;
                               name := "Adapter Content";
                               data := DNone; status := s |};
               data_lines := data_lines initial_state;
               parsed := parsed initial_state |}.
Proof.
  apply (header_opens_module 4300 tsv_reader initial_state
           (">>Adapter Content" ++ TAB ++ "warn" ++ TAB ++ "ignored" ++ NL)%string
           "Adapter Content" ("warn" ++ TAB ++ "ignored")%string);
    reflexivity.
Defined.

(** ** The table reader on text without quotes *)



Lemma count_app (c : ascii) (a b : string) :
  count c (a ++ b) = (count c a + count c b)%nat.
Proof. induction a as [|x a IH]; simpl; [reflexivity | rewrite IH; lia]. Qed.




Module PandasFacts.

Import Pandas.













End PandasFacts.

Section TabularClaim.

Variable max_str_digits : nat.
Variable read_csv : string -> result DataFrame.
Hypothesis reads : Pandas.reads_like_pandas read_csv.

Local Abbreviation from_module := (from_module max_str_digits read_csv).


End TabularClaim.


